(** * TetraCryptPQC Nexus: the security monitor loop and the PQC plugin

    A shallow embedding of [monitor.py] (class [SecurityMonitor]) and of
    [pqc_plugin.py] (class [PQCPlugin]).  Both programs are glue around
    external collaborators (key manager, scanners, pentest runner, the
    plugin host's logger, the pqcrypto bindings), so the embedding keeps
    the collaborators abstract: a call is answered by an arbitrary
    deterministic transition on a hidden collaborator state, and every
    theorem quantifies over that transition.  What the Python code itself
    does - the order of the calls, what happens when one raises (also
    inside the [except] clause), what is slept, printed, stored and
    returned - is modelled step by step in a
    state-and-exception monad over a world that records a chronological
    trace of the observable events and a logical clock. *)

From Stdlib Require Import List String Ascii ZArith Lia Bool.
Import ListNotations.

Local Open Scope string_scope.
Local Open Scope list_scope.
Local Open Scope Z_scope.

(* ================================================================== *)
(** ** Python values and exceptions *)
(* ================================================================== *)

Module Py.

(** The Python values the two programs handle.  Collaborator objects are
    opaque and only known by their identity. *)
#[warnings="-register-all"]
Inductive value : Type :=
| VNone
| VBool (b : bool)
| VInt (z : Z)
| VStr (s : string)
| VObj (id : nat)
| VTuple (items : list value).

(** [except Exception] catches every instance of [Exception]; the
    exceptions that derive from [BaseException] only ([KeyboardInterrupt],
    [SystemExit], [GeneratorExit]) pass through it. *)
Inductive exn_class : Type :=
| ExceptionClass
| BaseExceptionOnly.

(** A raised exception: its class and what [str(e)] does with it - the
    exception's own [__str__] gives a text, or raises in its turn. *)
Inductive exn : Type :=
| mkExn (cls : exn_class) (says : str_outcome)
with str_outcome : Type :=
| Text (s : string)
| StrRaises (e : exn).

Definition class_of (e : exn) : exn_class :=
  match e with mkExn cls _ => cls end.

(** [str(e)] *)
Definition str (e : exn) : str_outcome :=
  match e with mkExn _ says => says end.

Definition is_Exception (e : exn) : bool :=
  match class_of e with
  | ExceptionClass => true
  | BaseExceptionOnly => false
  end.

(** What a call into a collaborator does: it returns a value or raises. *)
Inductive outcome : Type :=
| Returns (v : value)
| Raises (e : exn).

(** The answer of a collaborator together with the time the call took. *)
Record reply : Type := mkReply { answer : outcome; took : Z }.

End Py.
Import Py.

(* ================================================================== *)
(** ** Worlds, events and the monad of effects *)
(* ================================================================== *)

Module Effects.

(** How a computation ends: normally with a value, or by raising. *)
Inductive result (A : Type) : Type :=
| Ok (a : A)
| Raise (e : exn).
Arguments Ok {A} a.
Arguments Raise {A} e.

Section World.
(** [Call] names the external operations of a program, [Self] is the
    type of the object the methods run on, [Ext] the hidden state of
    the collaborators. *)
Context {Call Self Ext : Type}.

Inductive event : Type :=
| Called (c : Call) (o : outcome) (d : Z)
| Slept (secs : Z)
| Printed (line : string).

Record World : Type := mkWorld {
  self : Self;          (* the attributes of the object *)
  ext : Ext;            (* state of the collaborators *)
  clock : Z;            (* seconds since the epoch *)
  trace : list event    (* observable events, oldest first *)
}.

Definition M (A : Type) : Type := World -> result A * World.

Definition ret {A} (a : A) : M A := fun w => (Ok a, w).

Definition bind {A B} (m : M A) (k : A -> M B) : M B :=
  fun w =>
    match m w with
    | (Ok a, w') => k a w'
    | (Raise e, w') => (Raise e, w')
    end.

Definition raise {A} (e : exn) : M A := fun w => (Raise e, w).

(** [try: body except Exception as e: handler(e)] *)
Definition try_except_Exception {A} (body : M A) (handler : exn -> M A) : M A :=
  fun w =>
    match body w with
    | (Ok a, w') => (Ok a, w')
    | (Raise e, w') =>
        if is_Exception e then handler e w' else (Raise e, w')
    end.

(** Reading an attribute of [self]. *)
Definition getattr {A} (field : Self -> A) : M A :=
  fun w => (Ok (field (self w)), w).

(** Rebinding the attributes of [self]. *)
Definition setattr (update : Self -> Self) : M unit :=
  fun w => (Ok tt, mkWorld (update (self w)) (ext w) (clock w) (trace w)).

Definition record (e : event) (w : World) : World :=
  mkWorld (self w) (ext w) (clock w) (trace w ++ [e]).

(** A call into a collaborator: the collaborator moves to its next
    state, the time the call took passes, the call is traced, and its
    outcome becomes a return value or a raised exception.  Neither
    program hands [self] to a collaborator, so a call leaves the
    attributes of [self] alone. *)
Definition invoke (respond : Call -> Ext -> reply * Ext) (c : Call) : M value :=
  fun w =>
    let '(r, x) := respond c (ext w) in
    let w' := record (Called c (answer r) (took r))
                (mkWorld (self w) x (clock w + took r) (trace w)) in
    match answer r with
    | Returns v => (Ok v, w')
    | Raises e => (Raise e, w')
    end.

(** [time.sleep(secs)], taken to return after [secs] seconds (a signal
    that interrupts the sleep is not modelled). *)
Definition sleep (secs : Z) : M unit :=
  fun w => (Ok tt, record (Slept secs)
                     (mkWorld (self w) (ext w) (clock w + secs) (trace w))).

(** [str(e)] where a text is needed: the text, or the exception that
    [__str__] raised. *)
Definition str_of (e : exn) : M string :=
  match str e with
  | Text s => ret s
  | StrRaises e' => raise e'
  end.

(** [print(line)]: standard output takes the line, or writing it raises
    (a closed stream, a broken pipe, a character the encoding lacks).
    [stdout] is what standard output does with a line in a given state
    of the outside world; printing takes no time. *)
Definition print (stdout : string -> Ext -> option exn * Ext) (line : string)
  : M unit :=
  fun w =>
    let '(o, x) := stdout line (ext w) in
    let w' := mkWorld (self w) x (clock w) (trace w) in
    match o with
    | None => (Ok tt, record (Printed line) w')
    | Some e => (Raise e, w')
    end.

(** The calls of a list made one after the other, stopping at the first
    that raises.  No source function is written this way; the six
    consecutive call statements of the monitor loop are shown below to
    behave as [in_turn] on the list of those six calls. *)
Fixpoint in_turn (respond : Call -> Ext -> reply * Ext) (cs : list Call)
  : M (list value) :=
  match cs with
  | [] => ret []
  | c :: cs' =>
      bind (invoke respond c) (fun v =>
      bind (in_turn respond cs') (fun vs =>
      ret (v :: vs)))
  end.

(** *** Reading traces *)

(** The events traced on the way from world [w] to world [w']. *)
Definition since (w w' : World) : list event :=
  skipn (List.length (trace w)) (trace w').

(** The events a computation adds to the trace of the world it starts in. *)
Definition emitted {A} (m : M A) (w : World) : list event :=
  since w (snd (m w)).

(** A call event that reports what the collaborators really answered in
    some state. *)
Definition answered_by (respond : Call -> Ext -> reply * Ext) (ev : event) : Prop :=
  match ev with
  | Called c o d => exists x, fst (respond c x) = mkReply o d
  | _ => True
  end.

(** The collaborator calls of a trace, in the order they were made. *)
Fixpoint invoked (evs : list event) : list Call :=
  match evs with
  | [] => []
  | Called c _ _ :: evs' => c :: invoked evs'
  | _ :: evs' => invoked evs'
  end.

(** The exceptions raised by the calls of a trace. *)
Fixpoint raised (evs : list event) : list exn :=
  match evs with
  | [] => []
  | Called _ (Raises e) _ :: evs' => e :: raised evs'
  | _ :: evs' => raised evs'
  end.

(** The sleeps of a trace. *)
Fixpoint sleeps (evs : list event) : list Z :=
  match evs with
  | [] => []
  | Slept s :: evs' => s :: sleeps evs'
  | _ :: evs' => sleeps evs'
  end.

(** The lines printed in a trace. *)
Fixpoint printed (evs : list event) : list string :=
  match evs with
  | [] => []
  | Printed l :: evs' => l :: printed evs'
  | _ :: evs' => printed evs'
  end.

(** The time spent inside collaborator calls. *)
Fixpoint call_time (evs : list event) : Z :=
  match evs with
  | [] => 0
  | Called _ _ d :: evs' => d + call_time evs'
  | _ :: evs' => call_time evs'
  end.

(** [evs] are the records of the calls [cs], made in that order, all of
    which returned. *)
Definition all_returned (respond : Call -> Ext -> reply * Ext)
  (evs : list event) (cs : list Call) : Prop :=
  Forall (answered_by respond) evs /\
  invoked evs = cs /\ raised evs = [] /\ sleeps evs = [] /\ printed evs = [].

End World.

Arguments event : clear implicits.
Arguments World : clear implicits.
Arguments M : clear implicits.

Declare Scope py_scope.
Notation "x <- m ;; k" := (bind m (fun x => k))
  (at level 61, m at next level, right associativity) : py_scope.
Notation "m ;; k" := (bind m (fun _ => k))
  (at level 61, right associativity) : py_scope.

End Effects.
Import Effects.
Local Open Scope py_scope.

(* ================================================================== *)
(** ** monitor.py *)
(* ================================================================== *)

Module Monitor.

(** The methods the loop calls on its collaborators. *)
Inductive method : Type :=
| check_keys
| check_privacy
| detect_anomalies
| scan_system
| monitor_host
| run_pentest.

(** The attributes [__init__] binds: one instance of each collaborator. *)
Record SecurityMonitor : Type := mkSecurityMonitor {
  key_manager : value;
  tf_privacy : value;
  clip : value;
  deepexploit : value;
  aihids : value;
  caldera : value
}.

(** [receiver.method()] *)
Definition Call : Type := (value * method)%type.

Section Collaborators.
Variable Ext : Type.
Variable respond : Call -> Ext -> reply * Ext.
Variable stdout : string -> Ext -> option exn * Ext.

Local Abbreviation World := (Effects.World Call SecurityMonitor Ext).
Local Abbreviation M := (Effects.M Call SecurityMonitor Ext).

(** [def log_status(self, key_status): pass] *)
Definition log_status (key_status : value) : M value :=
  ret VNone.

(** The body of the [try] statement. *)
Definition try_block : M unit :=
  km <- getattr key_manager ;;
  key_status <- invoke respond (km, check_keys) ;;
  tf <- getattr tf_privacy ;;
  _ <- invoke respond (tf, check_privacy) ;;
  cl <- getattr clip ;;
  _ <- invoke respond (cl, detect_anomalies) ;;
  de <- getattr deepexploit ;;
  _ <- invoke respond (de, scan_system) ;;
  ai <- getattr aihids ;;
  _ <- invoke respond (ai, monitor_host) ;;
  ca <- getattr caldera ;;
  _ <- invoke respond (ca, run_pentest) ;;
  _ <- log_status key_status ;;
  sleep 60.

(** [f"Monitoring error: {s}"] *)
Definition error_line (s : string) : string :=
  String.append "Monitoring error: " s.

(** [except Exception as e: print(f"Monitoring error: {str(e)}")].  The
    clause first evaluates [str(e)], then prints; either can raise, and
    nothing around them catches what they raise. *)
Definition handler (e : exn) : M unit :=
  s <- str_of e ;;
  print stdout (error_line s).

(** One pass through the body of [while True]. *)
Definition iteration : M unit :=
  try_except_Exception try_block handler.

(** The loop has no [break] and no [return]: the only way out is an
    exception that the [except] clause does not catch, or one raised
    inside the clause. *)
Inductive loop_state : Type :=
| StillLooping
| Escaped (e : exn).

(** [def monitor(self): while True: ...], observed after at most
    [passes] passes through the body. *)
Fixpoint monitor (passes : nat) (w : World) : loop_state * World :=
  match passes with
  | O => (StillLooping, w)
  | S n =>
      match iteration w with
      | (Ok _, w') => monitor n w'
      | (Raise e, w') => (Escaped e, w')
      end
  end.

(** The six checks in the order the loop body lists them. *)
Definition checks (s : SecurityMonitor) : list Call :=
  [ (key_manager s, check_keys);
    (tf_privacy s, check_privacy);
    (clip s, detect_anomalies);
    (deepexploit s, scan_system);
    (aihids s, monitor_host);
    (caldera s, run_pentest) ].

(** The two ways the [try] body can end from world [w]: all six checks
    returned and the loop slept, or one raised and the rest of the body
    was abandoned. *)
Inductive block_shape (w : World) : result unit -> World -> Prop :=
| block_completed (evs : list (event Call)) (x : Ext) :
    all_returned respond evs (checks (self w)) ->
    block_shape w (Ok tt)
      (mkWorld (self w) x (clock w + call_time evs + 60)
               (trace w ++ evs ++ [Slept 60]))
| block_raised (evs : list (event Call)) (x : Ext) (e : exn) (d : Z)
               (pre : list Call) (c : Call) (post : list Call) :
    checks (self w) = pre ++ c :: post ->
    all_returned respond evs pre ->
    answered_by respond (Called c (Raises e) d) ->
    block_shape w (Raise e)
      (mkWorld (self w) x (clock w + call_time evs + d)
               (trace w ++ evs ++ [Called c (Raises e) d])).

(** The ways one pass through the loop body can end from world [w],
    with the events the pass adds to the trace: the checks returned and
    the loop slept; a check raised an [Exception] and the handler printed
    it; a check raised an [Exception] whose [str] raises; a check raised
    an [Exception] and printing its line raised; a check raised something
    [except Exception] lets through. *)
Inductive pass_shape (w : World)
  : result unit -> World -> list (event Call) -> Prop :=
| pass_slept (evs : list (event Call)) (x : Ext) :
    all_returned respond evs (checks (self w)) ->
    pass_shape w (Ok tt)
      (mkWorld (self w) x (clock w + call_time evs + 60)
               (trace w ++ evs ++ [Slept 60]))
      (evs ++ [Slept 60])
| pass_caught (evs : list (event Call)) (x : Ext) (e : exn) (d : Z)
              (pre : list Call) (c : Call) (post : list Call)
              (s : string) (x' : Ext) :
    checks (self w) = pre ++ c :: post ->
    all_returned respond evs pre ->
    answered_by respond (Called c (Raises e) d) ->
    try_block w
      = (Raise e, mkWorld (self w) x (clock w + call_time evs + d)
                          (trace w ++ evs ++ [Called c (Raises e) d])) ->
    is_Exception e = true ->
    str e = Text s ->
    stdout (error_line s) x = (None, x') ->
    pass_shape w (Ok tt)
      (mkWorld (self w) x' (clock w + call_time evs + d)
               (trace w ++ evs ++ [Called c (Raises e) d; Printed (error_line s)]))
      (evs ++ [Called c (Raises e) d; Printed (error_line s)])
| pass_unprintable (evs : list (event Call)) (x : Ext) (e : exn) (d : Z)
                   (pre : list Call) (c : Call) (post : list Call) (e' : exn) :
    checks (self w) = pre ++ c :: post ->
    all_returned respond evs pre ->
    answered_by respond (Called c (Raises e) d) ->
    try_block w
      = (Raise e, mkWorld (self w) x (clock w + call_time evs + d)
                          (trace w ++ evs ++ [Called c (Raises e) d])) ->
    is_Exception e = true ->
    str e = StrRaises e' ->
    pass_shape w (Raise e')
      (mkWorld (self w) x (clock w + call_time evs + d)
               (trace w ++ evs ++ [Called c (Raises e) d]))
      (evs ++ [Called c (Raises e) d])
| pass_unprinted (evs : list (event Call)) (x : Ext) (e : exn) (d : Z)
                 (pre : list Call) (c : Call) (post : list Call)
                 (s : string) (e' : exn) (x' : Ext) :
    checks (self w) = pre ++ c :: post ->
    all_returned respond evs pre ->
    answered_by respond (Called c (Raises e) d) ->
    try_block w
      = (Raise e, mkWorld (self w) x (clock w + call_time evs + d)
                          (trace w ++ evs ++ [Called c (Raises e) d])) ->
    is_Exception e = true ->
    str e = Text s ->
    stdout (error_line s) x = (Some e', x') ->
    pass_shape w (Raise e')
      (mkWorld (self w) x' (clock w + call_time evs + d)
               (trace w ++ evs ++ [Called c (Raises e) d]))
      (evs ++ [Called c (Raises e) d])
| pass_escaped (evs : list (event Call)) (x : Ext) (e : exn) (d : Z)
               (pre : list Call) (c : Call) (post : list Call) :
    checks (self w) = pre ++ c :: post ->
    all_returned respond evs pre ->
    answered_by respond (Called c (Raises e) d) ->
    try_block w
      = (Raise e, mkWorld (self w) x (clock w + call_time evs + d)
                          (trace w ++ evs ++ [Called c (Raises e) d])) ->
    is_Exception e = false ->
    pass_shape w (Raise e)
      (mkWorld (self w) x (clock w + call_time evs + d)
               (trace w ++ evs ++ [Called c (Raises e) d]))
      (evs ++ [Called c (Raises e) d]).

End Collaborators.

Arguments log_status {Ext} key_status.
Arguments try_block {Ext} respond.
Arguments handler {Ext} stdout e.
Arguments iteration {Ext} respond stdout.
Arguments monitor {Ext} respond stdout passes w.
Arguments block_shape {Ext} respond w _ _.
Arguments pass_shape {Ext} respond stdout w _ _ _.

End Monitor.

(* ================================================================== *)
(** ** pqc_plugin.py *)
(* ================================================================== *)

Module Plugin.

(** The operations of the plugin host and of the pqcrypto bindings that
    the class calls. *)
Inductive Call : Type :=
| super_init                 (* super().__init__() *)
| log_info (msg : string)    (* self.log.info(msg) *)
| kyber512_keypair           (* pqcrypto.kem.kyber512.keypair() *)
| dilithium2_keypair.        (* pqcrypto.sign.dilithium2.keypair() *)

(** The attributes of a plugin object: the three the class itself binds
    ([None] stands for an attribute that is not bound yet), and all
    others by name - those the base class [Plugin] binds, such as [log]. *)
Record PQCPlugin : Type := mkPQCPlugin {
  name : option value;
  description : option value;
  services : option value;
  inherited : list (string * value)
}.

Section Host.
Variable Ext : Type.
Variable respond : Call -> Ext -> reply * Ext.

(** The initialiser of the base class [Plugin], which is not in this
    repository.  It is given [self]: besides answering, it leaves the
    object with whatever attributes it binds. *)
Variable base_init : PQCPlugin -> Ext -> reply * PQCPlugin * Ext.

(** What iterating a string or a collaborator's object yields: its
    items, or the exception its iterator raises. *)
Variable iterate : value -> Ext -> (list value + exn) * Ext.

(** The exception CPython raises when the right-hand side of
    [a, b = rhs] is not iterable or does not yield exactly two items (a
    [TypeError] or a [ValueError]; its text depends on the interpreter
    version). *)
Variable unpack_error : value -> exn.

Local Abbreviation World := (Effects.World Call PQCPlugin Ext).
Local Abbreviation M := (Effects.M Call PQCPlugin Ext).

(** [a, b = rhs]: the right-hand side is iterated and must yield exactly
    two items.  A tuple yields its items; [None], a bool and an int are
    not iterable; a string or an object is iterated by the host. *)
Definition unpack2 (rhs : value) : M (value * value) :=
  match rhs with
  | VTuple [a; b] => ret (a, b)
  | VTuple _ | VNone | VBool _ | VInt _ => raise (unpack_error rhs)
  | VStr _ | VObj _ =>
      fun w =>
        let '(items, x) := iterate rhs (ext w) in
        let w' := mkWorld (self w) x (clock w) (trace w) in
        match items with
        | inl [a; b] => (Ok (a, b), w')
        | inl _ => (Raise (unpack_error rhs), w')
        | inr e => (Raise e, w')
        end
  end.

(** [super().__init__()]: the base initialiser runs on [self]. *)
Definition call_super_init : M value :=
  fun w =>
    let '(r, s, x) := base_init (self w) (ext w) in
    let w' := record (Called super_init (answer r) (took r))
                (mkWorld s x (clock w + took r) (trace w)) in
    match answer r with
    | Returns v => (Ok v, w')
    | Raises e => (Raise e, w')
    end.

(** [def __init__(self)] *)
Definition __init__ : M value :=
  _ <- call_super_init ;;
  _ <- setattr (fun s => mkPQCPlugin (Some (VStr "PQC Plugin"))
                           (description s) (services s) (inherited s)) ;;
  _ <- setattr (fun s => mkPQCPlugin (name s)
                           (Some (VStr "Plugin for AI-powered PQC testing"))
                           (services s) (inherited s)) ;;
  ret VNone.

(** [def initialize(self, services)] *)
Definition initialize (services' : value) : M value :=
  _ <- setattr (fun s => mkPQCPlugin (name s) (description s) (Some services')
                           (inherited s)) ;;
  _ <- invoke respond (log_info "Initialized PQC Plugin") ;;
  ret VNone.

(** [def execute(self, operation)] *)
Definition execute (operation : value) : M value :=
  _ <- invoke respond (log_info "Executing PQC testing") ;;
  kem_pair <- invoke respond kyber512_keypair ;;
  _ <- unpack2 kem_pair ;;            (* public_key, private_key = ... *)
  _ <- invoke respond (log_info "Generated Kyber key pair") ;;
  sig_pair <- invoke respond dilithium2_keypair ;;
  _ <- unpack2 sig_pair ;;            (* public_key, private_key = ... *)
  _ <- invoke respond (log_info "Generated Dilithium key pair") ;;
  ret (VBool true).

(** The key-generation calls of a list of calls. *)
Definition is_keygen (c : Call) : bool :=
  match c with
  | kyber512_keypair | dilithium2_keypair => true
  | _ => false
  end.

(** Collaborators that answer: the logger returns, and both key
    generators return a pair, whatever state they are in. *)
Definition answers : Prop :=
  (forall msg x, exists v, answer (fst (respond (log_info msg) x)) = Returns v) /\
  (forall x, exists pk sk,
      answer (fst (respond kyber512_keypair x)) = Returns (VTuple [pk; sk])) /\
  (forall x, exists pk sk,
      answer (fst (respond dilithium2_keypair x)) = Returns (VTuple [pk; sk])).

End Host.

Arguments unpack2 {Ext} iterate unpack_error rhs.
Arguments call_super_init {Ext} base_init.
Arguments __init__ {Ext} base_init.
Arguments initialize {Ext} respond services'.
Arguments execute {Ext} respond iterate unpack_error operation.
Arguments answers {Ext} respond.

End Plugin.

(* ================================================================== *)
(** ** The text of pqc_plugin.py *)
(* ================================================================== *)

Module Source.

(** The physical lines of [pqc_plugin.py], verbatim. *)
Definition pqc_plugin_py : list string :=
  [ "nomad status tetracrypt";
    "podman psimport pqcrypto";
    "from caldera.plugins import Plugin";
    "";
    "class PQCPlugin(Plugin):";
    "    def __init__(self):";
    "        super().__init__()";
    "        self.name = 'PQC Plugin'";
    "        self.description = 'Plugin for AI-powered PQC testing'";
    "";
    "    def initialize(self, services):";
    "        self.services = services";
    "        self.log.info('Initialized PQC Plugin')";
    "";
    "    def execute(self, operation):";
    "        # Implement PQC-specific testing logic here";
    "        self.log.info('Executing PQC testing')";
    "";
    "        # Example: Test Kyber key generation";
    "        public_key, private_key = pqcrypto.kem.kyber512.keypair()";
    "        self.log.info('Generated Kyber key pair')";
    "";
    "        # Example: Test Dilithium signature generation";
    "        public_key, private_key = pqcrypto.sign.dilithium2.keypair()";
    "        self.log.info('Generated Dilithium key pair')";
    "";
    "        return True" ].

(** *** The part of Python's lexical and grammar rules the header meets

    Only one rule of the language is modelled, and only where it is
    certain: a statement cannot begin with two identifiers side by side
    unless one of them is a keyword (every production of the grammar puts
    an operator, a delimiter or a keyword between two names).  The check
    below can therefore only err towards accepting a text. *)

Definition is_space (c : ascii) : bool := Ascii.eqb c " ".

Definition is_name_start (c : ascii) : bool :=
  let n := nat_of_ascii c in
  ((65 <=? n) && (n <=? 90) || (97 <=? n) && (n <=? 122) || (n =? 95))%nat.

Definition is_name_char (c : ascii) : bool :=
  let n := nat_of_ascii c in
  (is_name_start c || (48 <=? n) && (n <=? 57))%nat.

Fixpoint all_chars (p : ascii -> bool) (s : string) : bool :=
  match s with
  | EmptyString => true
  | String c s' => p c && all_chars p s'
  end.

Definition is_identifier (w : string) : bool :=
  match w with
  | EmptyString => false
  | String c rest => is_name_start c && all_chars is_name_char rest
  end.

(** Keywords and soft keywords of Python 3. *)
Definition keywords : list string :=
  [ "False"; "None"; "True"; "and"; "as"; "assert"; "async"; "await";
    "break"; "class"; "continue"; "def"; "del"; "elif"; "else"; "except";
    "finally"; "for"; "from"; "global"; "if"; "import"; "in"; "is";
    "lambda"; "nonlocal"; "not"; "or"; "pass"; "raise"; "return"; "try";
    "while"; "with"; "yield"; "_"; "case"; "match"; "type" ].

Definition is_keyword (w : string) : bool :=
  existsb (String.eqb w) keywords.

Definition is_plain_name (w : string) : bool :=
  is_identifier w && negb (is_keyword w).

(** The words of a line: maximal runs of characters other than spaces. *)
Fixpoint split_words (s : string) (cur : string) : list string :=
  match s with
  | EmptyString =>
      match cur with EmptyString => [] | _ => [cur] end
  | String c s' =>
      if is_space c then
        match cur with
        | EmptyString => split_words s' EmptyString
        | _ => cur :: split_words s' EmptyString
        end
      else split_words s' (String.append cur (String c EmptyString))
  end.

Definition words (line : string) : list string := split_words line EmptyString.

(** A line that starts a statement with two plain names side by side. *)
Definition juxtaposed_names (line : string) : bool :=
  match words line with
  | w1 :: w2 :: _ => is_plain_name w1 && is_plain_name w2
  | _ => false
  end.

(** A line made of names and spaces only: it opens no bracket, string or
    continuation, so the line after it starts a statement too. *)
Definition plain_line (line : string) : bool :=
  all_chars (fun c => is_name_char c || is_space c) line.

(** The first line (counted from [lineno]) on which the rule is broken,
    looking no further than the rule is certain to apply. *)
Fixpoint first_syntax_error (lineno : nat) (lines : list string) : option nat :=
  match lines with
  | [] => None
  | l :: rest =>
      if juxtaposed_names l then Some lineno
      else if plain_line l then first_syntax_error (S lineno) rest
      else None
  end.

(** The name a top-level [class] statement binds. *)
Fixpoint take_name (s : string) : string :=
  match s with
  | EmptyString => EmptyString
  | String c s' => if is_name_char c then String c (take_name s') else EmptyString
  end.

Definition class_bound (line : string) : option string :=
  if String.prefix "class " line
  then Some (take_name (substring 6 (String.length line - 6) line))
  else None.

Fixpoint classes_bound (lines : list string) : list string :=
  match lines with
  | [] => []
  | l :: rest =>
      match class_bound l with
      | Some n => n :: classes_bound rest
      | None => classes_bound rest
      end
  end.

(** Importing a module: the whole text is compiled first, and only a text
    that compiles is executed, binding its classes. *)
Inductive import_outcome : Type :=
| SyntaxErrorAt (lineno : nat)
| Executed (classes : list string).

Definition import_module (text : list string) : import_outcome :=
  match first_syntax_error 1 text with
  | Some n => SyntaxErrorAt n
  | None => Executed (classes_bound text)
  end.

End Source.

(* ================================================================== *)
(** ** Concrete collaborators *)
(* ================================================================== *)

Module Scenario.

Import Monitor.

(** A monitor whose six attributes are six distinct collaborator objects. *)
Definition station : SecurityMonitor :=
  mkSecurityMonitor (VObj 1) (VObj 2) (VObj 3) (VObj 4) (VObj 5) (VObj 6).

(** Collaborators that follow a script: each method answers as the script
    says, every call takes [secs] seconds, and the hidden state counts the
    calls answered so far. *)
Definition scripted (script : method -> outcome) (secs : Z)
  : Monitor.Call -> nat -> reply * nat :=
  fun c n => (mkReply (script (snd c)) secs, S n).

Definition all_fine (m : method) : outcome :=
  match m with
  | check_keys => Returns (VStr "keys healthy")
  | _ => Returns VNone
  end.

Definition privacy_fails (m : method) : outcome :=
  match m with
  | check_privacy => Raises (mkExn ExceptionClass (Text "privacy budget exceeded"))
  | _ => all_fine m
  end.

Definition keys_fail (m : method) : outcome :=
  match m with
  | check_keys => Raises (mkExn ExceptionClass (Text "key store unreachable"))
  | _ => all_fine m
  end.

(** Ctrl-C while the exploit scanner runs. *)
Definition interrupted (m : method) : outcome :=
  match m with
  | scan_system => Raises (mkExn BaseExceptionOnly (Text ""))
  | _ => all_fine m
  end.

(** A standard output that takes every line. *)
Definition console (line : string) (n : nat) : option exn * nat :=
  (None, n).

(** The world when [monitor] is entered at time 0. *)
Definition boot : Effects.World Monitor.Call SecurityMonitor nat :=
  mkWorld station 0%nat 0 [].

Import Plugin.

(** A plugin host whose logger returns [None] and whose key generators
    return pairs of opaque key objects. *)
Definition host (c : Plugin.Call) (n : nat) : reply * nat :=
  match c with
  | super_init => (mkReply (Returns VNone) 0, S n)
  | log_info _ => (mkReply (Returns VNone) 0, S n)
  | kyber512_keypair =>
      (mkReply (Returns (VTuple [VObj (10 + n); VObj (11 + n)])) 1, S n)
  | dilithium2_keypair =>
      (mkReply (Returns (VTuple [VObj (20 + n); VObj (21 + n)])) 2, S n)
  end.

Definition type_error (v : value) : exn :=
  mkExn ExceptionClass (Text "cannot unpack").

(** A host none of whose strings and objects can be iterated. *)
Definition no_iteration (v : value) (n : nat) : (list value + exn) * nat :=
  (inr (type_error v), n).

(** A base class whose initialiser binds [log]. *)
Definition base (s : PQCPlugin) (n : nat) : reply * PQCPlugin * nat :=
  (mkReply (Returns VNone) 0,
   mkPQCPlugin (name s) (description s) (services s)
               (("log", VObj 1) :: inherited s),
   S n).

(** A plugin after [__init__] and [initialize]. *)
Definition loaded : Effects.World Plugin.Call PQCPlugin nat :=
  mkWorld
    (mkPQCPlugin (Some (VStr "PQC Plugin"))
                 (Some (VStr "Plugin for AI-powered PQC testing"))
                 (Some (VObj 0))
                 [("log", VObj 1)])
    0%nat 0 [].

End Scenario.

(* ================================================================== *)
(** ** More ways to read a trace *)
(* ================================================================== *)

Module Traces.

Section Reading.
Context {Call : Type}.

(** The values the calls of a trace returned, in order. *)
Fixpoint returned (evs : list (event Call)) : list value :=
  match evs with
  | [] => []
  | Called _ (Returns v) _ :: evs' => v :: returned evs'
  | _ :: evs' => returned evs'
  end.

(** What a call raised, if it raised. *)
Definition raising (o : outcome) : option exn :=
  match o with
  | Raises e => Some e
  | Returns _ => None
  end.

(** An event with the value a call returned left out. *)
Definition blank (ev : event Call) : event Call :=
  match ev with
  | Called c (Returns _) d => Called c (Returns VNone) d
  | _ => ev
  end.

End Reading.

(** Two families of collaborators that differ at most in the values
    their calls return: same next state, same duration, same exception. *)
Definition same_but_for_values {Call Ext : Type}
  (r1 r2 : Call -> Ext -> reply * Ext) : Prop :=
  forall c x,
    snd (r1 c x) = snd (r2 c x) /\
    took (fst (r1 c x)) = took (fst (r2 c x)) /\
    raising (answer (fst (r1 c x))) = raising (answer (fst (r2 c x))).

(** Two worlds that differ at most in the values recorded in their
    traces. *)
Definition alike {Call Self Ext : Type} (w1 w2 : World Call Self Ext) : Prop :=
  self w1 = self w2 /\ ext w1 = ext w2 /\ clock w1 = clock w2 /\
  map blank (trace w1) = map blank (trace w2).

End Traces.
Import Traces.

(* ================================================================== *)
(** ** monitor.py: construction and the script entry point *)
(* ================================================================== *)

Module Startup.

(** The collaborator classes [__init__] instantiates. *)
Inductive constructor : Type :=
| KeyManager
| TensorFlowPrivacyMonitor
| ClipAnomalyDetector
| DeepExploitScanner
| AIHIDS
| CalderaPentest.

(** The instance attributes of a monitor under construction; [None]
    stands for an attribute that is not bound yet. *)
Record Attributes : Type := mkAttributes {
  key_manager : option value;
  tf_privacy : option value;
  clip : option value;
  deepexploit : option value;
  aihids : option value;
  caldera : option value
}.

(** A fresh object has no instance attributes. *)
Definition unbound : Attributes :=
  mkAttributes None None None None None None.

(** The six instantiations in the order [__init__] lists them. *)
Definition constructors : list constructor :=
  [ KeyManager; TensorFlowPrivacyMonitor; ClipAnomalyDetector;
    DeepExploitScanner; AIHIDS; CalderaPentest ].


(** The monitor the loop runs on, once all six attributes are bound. *)
Definition built (a : Attributes) : option Monitor.SecurityMonitor :=
  match a with
  | mkAttributes (Some km) (Some tf) (Some cl) (Some de) (Some ai) (Some ca) =>
      Some (Monitor.mkSecurityMonitor km tf cl de ai ca)
  | _ => None
  end.

Section Factory.
Variable Ext : Type.
Variable construct : constructor -> Ext -> reply * Ext.
Variable respond : Monitor.Call -> Ext -> reply * Ext.
Variable stdout : string -> Ext -> option exn * Ext.

Local Abbreviation World := (Effects.World constructor Attributes Ext).
Local Abbreviation M := (Effects.M constructor Attributes Ext).

(** [def __init__(self)] *)
Definition __init__ : M value :=
  km <- invoke construct KeyManager ;;
  _ <- setattr (fun s => mkAttributes (Some km) (tf_privacy s) (clip s)
                           (deepexploit s) (aihids s) (caldera s)) ;;
  tf <- invoke construct TensorFlowPrivacyMonitor ;;
  _ <- setattr (fun s => mkAttributes (key_manager s) (Some tf) (clip s)
                           (deepexploit s) (aihids s) (caldera s)) ;;
  cl <- invoke construct ClipAnomalyDetector ;;
  _ <- setattr (fun s => mkAttributes (key_manager s) (tf_privacy s) (Some cl)
                           (deepexploit s) (aihids s) (caldera s)) ;;
  de <- invoke construct DeepExploitScanner ;;
  _ <- setattr (fun s => mkAttributes (key_manager s) (tf_privacy s) (clip s)
                           (Some de) (aihids s) (caldera s)) ;;
  ai <- invoke construct AIHIDS ;;
  _ <- setattr (fun s => mkAttributes (key_manager s) (tf_privacy s) (clip s)
                           (deepexploit s) (Some ai) (caldera s)) ;;
  ca <- invoke construct CalderaPentest ;;
  _ <- setattr (fun s => mkAttributes (key_manager s) (tf_privacy s) (clip s)
                           (deepexploit s) (aihids s) (Some ca)) ;;
  ret VNone.

(** How a run of the script stands after at most [passes] passes of the
    loop: the construction raised; or the loop was entered, with the world
    the construction left and the state of the loop.  [MissingAttribute]
    stands for a loop entered on a monitor that lacks an attribute, which
    is shown below never to be the case. *)
Inductive run : Type :=
| ConstructionFailed (e : exn) (w : World)
| MissingAttribute (w : World)
| Monitoring (constructed : World) (s : Monitor.loop_state)
             (w : Effects.World Monitor.Call Monitor.SecurityMonitor Ext).

(** [if __name__ == "__main__": monitor = SecurityMonitor(); monitor.monitor()],
    started with the collaborators in state [x] at time [t].  The loop
    starts its own trace. *)
Definition main (passes : nat) (x : Ext) (t : Z) : run :=
  match __init__ (mkWorld unbound x t []) with
  | (Raise e, w1) => ConstructionFailed e w1
  | (Ok _, w1) =>
      match built (self w1) with
      | Some m =>
          let '(s, w2) :=
            Monitor.monitor respond stdout passes
              (mkWorld m (ext w1) (clock w1) []) in
          Monitoring w1 s w2
      | None => MissingAttribute w1
      end
  end.

End Factory.

Arguments __init__ {Ext} construct.
Arguments main {Ext} construct respond stdout passes x t.
Arguments ConstructionFailed {Ext} e w.
Arguments MissingAttribute {Ext} w.
Arguments Monitoring {Ext} constructed s w.

End Startup.

(* ================================================================== *)
(** ** pqc_plugin.py: the calls of execute *)
(* ================================================================== *)

Module Calls.

(** The calls of [execute], in the order the method lists them. *)
Definition execute_calls : list Plugin.Call :=
  [ Plugin.log_info "Executing PQC testing";
    Plugin.kyber512_keypair;
    Plugin.log_info "Generated Kyber key pair";
    Plugin.dilithium2_keypair;
    Plugin.log_info "Generated Dilithium key pair" ].

End Calls.
Import Calls.

(* ================================================================== *)
(** ** More concrete collaborators *)
(* ================================================================== *)

Module Fixtures.

Import Startup.

(** A factory that hands out object number [100 + n] on the [n]-th
    instantiation, each taking one second. *)
Definition factory (c : constructor) (n : nat) : reply * nat :=
  (mkReply (Returns (VObj (100 + n))) 1, S n).

(** A factory whose exploit scanner cannot be instantiated. *)
Definition factory_without_scanner (c : constructor) (n : nat) : reply * nat :=
  match c with
  | DeepExploitScanner =>
      (mkReply (Raises (mkExn ExceptionClass (Text "model file missing"))) 1, S n)
  | _ => factory c n
  end.

(** The privacy check fails with an exception whose [__str__] raises. *)
Definition privacy_fails_unprintably (m : Monitor.method) : outcome :=
  match m with
  | Monitor.check_privacy =>
      Raises (mkExn ExceptionClass
                (StrRaises (mkExn ExceptionClass (Text "__str__ failed"))))
  | _ => Scenario.all_fine m
  end.

(** A standard output that has been closed. *)
Definition closed_console (line : string) (n : nat) : option exn * nat :=
  (Some (mkExn ExceptionClass (Text "I/O operation on closed file")), n).

(** The checks of [Scenario.all_fine], with other return values. *)
Definition all_fine_other_values (m : Monitor.method) : outcome :=
  match m with
  | Monitor.check_keys => Returns (VInt 7)
  | _ => Returns (VBool false)
  end.

Import Plugin.

(** A host whose Kyber binding returns [None] instead of a key pair. *)
Definition host_with_broken_kyber (c : Plugin.Call) (n : nat) : reply * nat :=
  match c with
  | kyber512_keypair => (mkReply (Returns VNone) 1, S n)
  | _ => Scenario.host c n
  end.

(** A host whose Kyber binding raises. *)
Definition host_with_failing_kyber (c : Plugin.Call) (n : nat) : reply * nat :=
  match c with
  | kyber512_keypair =>
      (mkReply (Raises (mkExn ExceptionClass (Text "liboqs not loaded"))) 1, S n)
  | _ => Scenario.host c n
  end.

(** A host whose logger raises. *)
Definition host_with_failing_logger (c : Plugin.Call) (n : nat) : reply * nat :=
  match c with
  | log_info _ =>
      (mkReply (Raises (mkExn ExceptionClass (Text "log closed"))) 0, S n)
  | _ => Scenario.host c n
  end.

(** A host whose Kyber binding returns a key-pair object that iterates
    to its two keys. *)
Definition host_with_pair_objects (c : Plugin.Call) (n : nat) : reply * nat :=
  match c with
  | kyber512_keypair => (mkReply (Returns (VObj 7)) 1, S n)
  | _ => Scenario.host c n
  end.

Definition pair_objects (v : value) (n : nat) : (list value + exn) * nat :=
  match v with
  | VObj 7 => (inl [VObj 70; VObj 71], n)
  | _ => Scenario.no_iteration v n
  end.

(** A plugin object before [__init__]. *)
Definition blank_plugin : Effects.World Plugin.Call PQCPlugin nat :=
  mkWorld (mkPQCPlugin None None None []) 0%nat 0 [].

End Fixtures.

(* ================================================================== *)
(** * Properties *)
(* ================================================================== *)

(** *** Facts about traces *)

Section TraceFacts.
Context {Call Self Ext : Type}.
Local Abbreviation event := (event Call).
Local Abbreviation World := (World Call Self Ext).
Local Abbreviation M := (M Call Self Ext).

Lemma since_extension (w w' : World) (evs : list event) :
  trace w' = trace w ++ evs -> since w w' = evs.
Proof.
  intros E. unfold since. rewrite E.
  rewrite skipn_app, skipn_all, Nat.sub_diag. reflexivity.
Qed.

Lemma emitted_of_extension {A} (m : M A) (w : World) (evs : list event) :
  trace (snd (m w)) = trace w ++ evs -> emitted m w = evs.
Proof. apply since_extension. Qed.

Lemma invoked_app (l1 l2 : list event) :
  invoked (l1 ++ l2) = invoked l1 ++ invoked l2.
Proof.
  induction l1 as [|[c o d|s|p] l1 IH]; simpl; rewrite ?IH; reflexivity.
Qed.

Lemma raised_app (l1 l2 : list event) :
  raised (l1 ++ l2) = raised l1 ++ raised l2.
Proof.
  induction l1 as [|[c [v|e] d|s|p] l1 IH]; simpl; rewrite ?IH; reflexivity.
Qed.

Lemma sleeps_app (l1 l2 : list event) :
  sleeps (l1 ++ l2) = sleeps l1 ++ sleeps l2.
Proof.
  induction l1 as [|[c o d|s|p] l1 IH]; simpl; rewrite ?IH; reflexivity.
Qed.

Lemma printed_app (l1 l2 : list event) :
  printed (l1 ++ l2) = printed l1 ++ printed l2.
Proof.
  induction l1 as [|[c o d|s|p] l1 IH]; simpl; rewrite ?IH; reflexivity.
Qed.

Lemma call_time_app (l1 l2 : list event) :
  call_time (l1 ++ l2) = call_time l1 + call_time l2.
Proof.
  induction l1 as [|[c o d|s|p] l1 IH]; simpl; rewrite ?IH; lia.
Qed.

Lemma raised_In (evs : list event) (c : Call) (e : exn) (d : Z) :
  In (Called c (Raises e) d) evs -> In e (raised evs).
Proof.
  induction evs as [|[c' [v|e'] d'|s|p] evs IH]; simpl; intros H;
    try (destruct H as [H|H]; [discriminate || (inversion H; auto) | auto]).
  contradiction.
Qed.

Lemma In_raised (evs : list event) (e : exn) :
  In e (raised evs) -> exists c d, In (Called c (Raises e) d) evs.
Proof.
  induction evs as [|[c' [v|e'] d'|s|p] evs IH]; simpl; intros H;
    try contradiction;
    try (destruct (IH H) as (c & d & Hin); exists c, d; auto).
  destruct H as [->|H].
  - exists c', d'. auto.
  - destruct (IH H) as (c & d & Hin). exists c, d. auto.
Qed.

Lemma sleeps_In (evs : list event) (s : Z) :
  In (Slept s) evs -> In s (sleeps evs).
Proof.
  induction evs as [|[c' o d'|s'|p] evs IH]; simpl; intros H;
    try (destruct H as [H|H]; [discriminate || (inversion H; auto) | auto]).
  contradiction.
Qed.

Lemma invoked_In (evs : list event) (c : Call) :
  In c (invoked evs) -> exists o d, In (Called c o d) evs.
Proof.
  induction evs as [|[c' o' d'|s|p] evs IH]; simpl; intros H;
    try contradiction;
    try (destruct (IH H) as (o & d & Hin); exists o, d; auto).
  destruct H as [->|H].
  - exists o', d'. auto.
  - destruct (IH H) as (o & d & Hin). exists o, d. auto.
Qed.

End TraceFacts.

(* ================================================================== *)
(** ** The monitor loop *)
(* ================================================================== *)

Section MonitorFacts.
Import Monitor.
Variable Ext : Type.
Variable respond : Call -> Ext -> reply * Ext.
Variable stdout : string -> Ext -> option exn * Ext.

Local Abbreviation World := (Effects.World Call SecurityMonitor Ext).

Lemma in_turn_cons_returns (c : Call) (cs : list Call) (w : World) v d x1 :
  respond c (ext w) = (mkReply (Returns v) d, x1) ->
  in_turn respond (c :: cs) w
  = match in_turn respond cs
            (mkWorld (self w) x1 (clock w + d)
                     (trace w ++ [Called c (Returns v) d])) with
    | (Ok vs, w2) => (Ok (v :: vs), w2)
    | (Raise e, w2) => (Raise e, w2)
    end.
Proof.
  intros R. simpl. unfold bind at 1. unfold invoke. rewrite R. simpl.
  unfold bind, ret, record. simpl.
  destruct (in_turn respond cs _) as [[vs|e] w2]; reflexivity.
Qed.

Lemma in_turn_cons_raises (c : Call) (cs : list Call) (w : World) e d x1 :
  respond c (ext w) = (mkReply (Raises e) d, x1) ->
  in_turn respond (c :: cs) w
  = (Raise e, mkWorld (self w) x1 (clock w + d)
                      (trace w ++ [Called c (Raises e) d])).
Proof.
  intros R. simpl. unfold bind at 1. unfold invoke. rewrite R. reflexivity.
Qed.

Lemma all_returned_nil : all_returned respond [] ([] : list Call).
Proof. repeat split; auto. Qed.

Lemma all_returned_cons (c : Call) v d evs cs :
  answered_by respond (Called c (Returns v) d) ->
  all_returned respond evs cs ->
  all_returned respond (Called c (Returns v) d :: evs) (c :: cs).
Proof.
  intros Ha (HF & Hi & Hr & Hs & Hp).
  repeat split; simpl; auto; congruence.
Qed.

(** Calls made in turn: the world afterwards and what was traced. *)
Lemma in_turn_runs (cs : list Call) :
  forall w : World,
  exists evs x,
    match fst (in_turn respond cs w) with
    | Ok vs =>
        snd (in_turn respond cs w)
          = mkWorld (self w) x (clock w + call_time evs) (trace w ++ evs) /\
        all_returned respond evs cs
    | Raise e =>
        exists pre c post d,
          snd (in_turn respond cs w)
            = mkWorld (self w) x (clock w + call_time evs + d)
                      (trace w ++ evs ++ [Called c (Raises e) d]) /\
          cs = pre ++ c :: post /\
          all_returned respond evs pre /\
          answered_by respond (Called c (Raises e) d)
    end.
Proof.
  induction cs as [|c cs IH]; intros w.
  - exists [], (ext w). simpl. split; [|apply all_returned_nil].
    destruct w; simpl. rewrite Z.add_0_r, app_nil_r. reflexivity.
  - destruct (respond c (ext w)) as [[[v|e] d] x1] eqn:R.
    + rewrite (in_turn_cons_returns c cs w v d x1 R).
      set (w1 := mkWorld _ _ _ _).
      destruct (IH w1) as (evs & x & Hr).
      assert (Hgen : answered_by respond (Called c (Returns v) d)).
      { exists (ext w). rewrite R. reflexivity. }
      exists (Called c (Returns v) d :: evs), x.
      destruct (in_turn respond cs w1) as [[vs|e] w2]; cbn [fst snd] in *.
      * destruct Hr as (Hw & Hall). subst w2. split.
        -- unfold w1; simpl. rewrite <- app_assoc. simpl. f_equal. lia.
        -- apply all_returned_cons; assumption.
      * destruct Hr as (pre & c' & post & d' & Hw & Hcs & Hall & Ha). subst w2.
        exists (c :: pre), c', post, d'. split; [|split; [|split]].
        -- unfold w1; simpl. rewrite <- app_assoc. simpl. f_equal. lia.
        -- simpl. congruence.
        -- apply all_returned_cons; assumption.
        -- assumption.
    + rewrite (in_turn_cons_raises c cs w e d x1 R).
      exists [], x1. cbn [fst snd].
      exists [], c, cs, d. split; [|split; [|split]].
      * simpl. f_equal. lia.
      * reflexivity.
      * apply all_returned_nil.
      * exists (ext w). rewrite R. reflexivity.
Qed.

(** The six call statements of the [try] body are the six checks made in
    turn, followed by [log_status] and the sleep. *)
Lemma try_block_in_turn (w : World) :
  try_block respond w
  = bind (in_turn respond (checks (self w)))
         (fun vs => bind (log_status (hd VNone vs)) (fun _ => sleep 60)) w.
Proof.
  unfold try_block, checks, in_turn, bind, getattr, invoke, log_status, ret.
  simpl.
  repeat (destruct (respond _ _) as [[[?v|?e] ?d] ?x]; simpl; try reflexivity).
Qed.

Lemma try_block_shape (w : World) :
  block_shape respond w (fst (try_block respond w)) (snd (try_block respond w)).
Proof.
  destruct (try_block respond w) as [r w'] eqn:E.
  rewrite try_block_in_turn in E. unfold bind at 1 in E.
  destruct (in_turn_runs (checks (self w)) w) as (evs & x & Hr).
  destruct (in_turn respond (checks (self w)) w) as [[vs|e] w1];
    cbn [fst snd] in *.
  - destruct Hr as (Hw & Hall). subst w1.
    unfold bind, log_status, ret, sleep, record in E; cbn [self ext clock trace] in E.
    inversion E; subst r w'; clear E.
    rewrite <- app_assoc.
    apply block_completed; auto.
  - destruct Hr as (pre & c & post & d & Hw & Hcs & Hall & Ha). subst w1.
    inversion E; subst r w'; clear E.
    eapply block_raised; eauto.
Qed.

(** *** The handler *)

Lemma handler_prints (e : exn) (s : string) (w : World) :
  str e = Text s ->
  fst (stdout (error_line s) (ext w)) = None ->
  handler stdout e w
  = (Ok tt,
     mkWorld (self w) (snd (stdout (error_line s) (ext w))) (clock w)
             (trace w ++ [Printed (error_line s)])).
Proof.
  intros Hs Ho. unfold handler, str_of, bind, print, record. rewrite Hs.
  cbn [ret]. destruct (stdout (error_line s) (ext w)) as [o x].
  cbn [fst snd] in *. subst o. reflexivity.
Qed.

Lemma handler_str_raises (e e' : exn) (w : World) :
  str e = StrRaises e' -> handler stdout e w = (Raise e', w).
Proof.
  intros Hs. unfold handler, str_of, bind. rewrite Hs. reflexivity.
Qed.

Lemma handler_print_raises (e : exn) (s : string) (e' : exn) (w : World) :
  str e = Text s ->
  fst (stdout (error_line s) (ext w)) = Some e' ->
  handler stdout e w
  = (Raise e',
     mkWorld (self w) (snd (stdout (error_line s) (ext w))) (clock w) (trace w)).
Proof.
  intros Hs Ho. unfold handler, str_of, bind, print, record. rewrite Hs.
  cbn [ret]. destruct (stdout (error_line s) (ext w)) as [o x].
  cbn [fst snd] in *. subst o. reflexivity.
Qed.

(** An exception that left the [try] body goes to the handler if it is
    an [Exception], and out of the loop body if it is not. *)
Lemma iteration_of_raise (w w1 : World) (e : exn) :
  try_block respond w = (Raise e, w1) ->
  iteration respond stdout w
  = if is_Exception e then handler stdout e w1 else (Raise e, w1).
Proof.
  intros E. unfold iteration, try_except_Exception. rewrite E. reflexivity.
Qed.

Lemma iteration_shape (w : World) :
  pass_shape respond stdout w
             (fst (iteration respond stdout w)) (snd (iteration respond stdout w))
             (emitted (iteration respond stdout) w).
Proof.
  pose proof (try_block_shape w) as Hb.
  unfold emitted.
  destruct (try_block respond w) as [r w'] eqn:E; cbn [fst snd] in Hb.
  destruct Hb as [evs x Hall | evs x e d pre c post Hcs Hall Ha].
  - unfold iteration, try_except_Exception. rewrite E. cbn [fst snd].
    rewrite (since_extension _ _ (evs ++ [Slept 60])) by reflexivity.
    apply pass_slept; assumption.
  - rewrite (iteration_of_raise w _ e E).
    destruct (is_Exception e) eqn:Hk.
    + destruct (str e) as [s|e'] eqn:Hs.
      * destruct (stdout (error_line s) x) as [[e'|] x'] eqn:Ho.
        -- rewrite (handler_print_raises e s e' _ Hs)
             by (cbn [ext]; rewrite Ho; reflexivity).
           cbn [fst snd self ext clock trace]. rewrite Ho. cbn [snd].
           rewrite (since_extension _ _ (evs ++ [Called c (Raises e) d]))
             by reflexivity.
           eapply pass_unprinted; eauto.
        -- rewrite (handler_prints e s _ Hs)
             by (cbn [ext]; rewrite Ho; reflexivity).
           cbn [fst snd self ext clock trace]. rewrite Ho. cbn [snd].
           rewrite <- !app_assoc. cbn [app].
           rewrite (since_extension _ _
                      (evs ++ [Called c (Raises e) d; Printed (error_line s)]))
             by reflexivity.
           eapply pass_caught; eauto.
      * rewrite (handler_str_raises e e' _ Hs). cbn [fst snd].
        rewrite (since_extension _ _ (evs ++ [Called c (Raises e) d]))
          by reflexivity.
        eapply pass_unprintable; eauto.
    + cbn [fst snd].
      rewrite (since_extension _ _ (evs ++ [Called c (Raises e) d])) by reflexivity.
      eapply pass_escaped; eauto.
Qed.

(** *** Reading a pass *)

Ltac pass_view w :=
  let H := fresh "Hpass" in
  pose proof (iteration_shape w) as H;
  remember (fst (iteration respond stdout w)) as r_ eqn:Hfst_;
  remember (snd (iteration respond stdout w)) as w_ eqn:Hsnd_;
  remember (emitted (iteration respond stdout) w) as evs_ eqn:Hemit_;
  destruct H as [evs x Hall
                | evs x e0 d0 pre c0 post s0 x' Hcs Hall Hans Htry Hk Hstr Hout
                | evs x e0 d0 pre c0 post e1 Hcs Hall Hans Htry Hk Hstr
                | evs x e0 d0 pre c0 post s0 e1 x' Hcs Hall Hans Htry Hk Hstr Hout
                | evs x e0 d0 pre c0 post Hcs Hall Hans Htry Hk].

Lemma monitor_step (w : World) (n : nat) :
  fst (iteration respond stdout w) = Ok tt ->
  monitor respond stdout (S n) w
  = monitor respond stdout n (snd (iteration respond stdout w)).
Proof.
  simpl. destruct (iteration respond stdout w) as [[u|e] w']; simpl; intros H.
  - reflexivity.
  - discriminate.
Qed.

Lemma monitor_step_escape (w : World) (n : nat) (e : exn) :
  fst (iteration respond stdout w) = Raise e ->
  monitor respond stdout (S n) w = (Escaped e, snd (iteration respond stdout w)).
Proof.
  simpl. destruct (iteration respond stdout w) as [[u|e'] w']; simpl; intros H.
  - discriminate.
  - congruence.
Qed.

Lemma all_returned_no_raise (evs : list (event Call)) (cs : list Call) c e d :
  all_returned respond evs cs -> ~ In (Called c (Raises e) d) evs.
Proof.
  intros (_ & _ & Hr & _) Hin. apply raised_In in Hin.
  rewrite Hr in Hin. destruct Hin.
Qed.

Lemma checks_NoDup (s : SecurityMonitor) : NoDup (checks s).
Proof.
  apply (NoDup_map_inv snd). simpl.
  repeat constructor; simpl; intuition discriminate.
Qed.

Lemma NoDup_split_apart {A} (pre : list A) (c : A) (post : list A) :
  NoDup (pre ++ c :: post) ->
  NoDup (pre ++ [c]) /\ forall c', In c' post -> ~ In c' (pre ++ [c]).
Proof.
  intros H. split.
  - replace (pre ++ c :: post) with ((pre ++ [c]) ++ post) in H
      by (rewrite <- app_assoc; reflexivity).
    apply NoDup_app_remove_r in H. exact H.
  - intros c' Hpost Hin. apply in_app_or in Hin.
    induction pre as [|a pre IH]; simpl in *.
    + inversion H; subst. destruct Hin as [[]|[Heq|[]]]. subst. auto.
    + inversion H as [|? ? Hna Hnd]; subst.
      destruct Hin as [[Heq|Hin]|Hin].
      * subst. apply Hna. apply in_or_app. right. right. exact Hpost.
      * apply IH; auto.
      * apply IH; auto.
Qed.

(** The raising call of a pass is the last call of the pass. *)
Lemma raise_is_last (evs tail : list (event Call)) (pre : list Call)
      (c c0 : Call) (e e0 : exn) (d d0 : Z) :
  all_returned respond evs pre ->
  (forall c' o' d', ~ In (Called c' o' d') tail) ->
  In (Called c (Raises e) d) (evs ++ Called c0 (Raises e0) d0 :: tail) ->
  c = c0 /\ e = e0 /\ d = d0.
Proof.
  intros Hall Htail Hin. apply in_app_or in Hin. destruct Hin as [Hin|[Hin|Hin]].
  - exfalso. eapply all_returned_no_raise; eauto.
  - inversion Hin. auto.
  - exfalso. eapply Htail; eauto.
Qed.

(** What a pass in which a call raised looks like. *)
Lemma raising_pass (w : World) c e d :
  In (Called c (Raises e) d) (emitted (iteration respond stdout) w) ->
  exists evs x pre post tail,
    checks (self w) = pre ++ c :: post /\
    all_returned respond evs pre /\
    answered_by respond (Called c (Raises e) d) /\
    try_block respond w
      = (Raise e, mkWorld (self w) x (clock w + call_time evs + d)
                          (trace w ++ evs ++ [Called c (Raises e) d])) /\
    emitted (iteration respond stdout) w = evs ++ Called c (Raises e) d :: tail /\
    (tail = [] \/ exists s, str e = Text s /\ tail = [Printed (error_line s)]) /\
    self (snd (iteration respond stdout w)) = self w /\
    clock (snd (iteration respond stdout w)) = clock w + call_time evs + d.
Proof.
  intros Hin. pass_view w.
  - exfalso. apply in_app_or in Hin. destruct Hin as [Hin|[Hin|[]]].
    + eapply all_returned_no_raise; eauto.
    + discriminate.
  - assert (Heq : c = c0 /\ e = e0 /\ d = d0).
    { eapply raise_is_last; [exact Hall| |exact Hin].
      intros c' o' d' [H|[]]. discriminate. }
    destruct Heq as (-> & -> & ->).
    exists evs, x, pre, post, [Printed (error_line s0)].
    do 4 (split; [assumption|]). split; [reflexivity|].
    split; [right; exists s0; auto|]. split; reflexivity.
  - assert (Heq : c = c0 /\ e = e0 /\ d = d0).
    { eapply raise_is_last; [exact Hall| |exact Hin]. intros c' o' d' []. }
    destruct Heq as (-> & -> & ->).
    exists evs, x, pre, post, [].
    do 4 (split; [assumption|]). split; [reflexivity|].
    split; [left; reflexivity|]. split; reflexivity.
  - assert (Heq : c = c0 /\ e = e0 /\ d = d0).
    { eapply raise_is_last; [exact Hall| |exact Hin]. intros c' o' d' []. }
    destruct Heq as (-> & -> & ->).
    exists evs, x, pre, post, [].
    do 4 (split; [assumption|]). split; [reflexivity|].
    split; [left; reflexivity|]. split; reflexivity.
  - assert (Heq : c = c0 /\ e = e0 /\ d = d0).
    { eapply raise_is_last; [exact Hall| |exact Hin]. intros c' o' d' []. }
    destruct Heq as (-> & -> & ->).
    exists evs, x, pre, post, [].
    do 4 (split; [assumption|]). split; [reflexivity|].
    split; [left; reflexivity|]. split; reflexivity.
Qed.

(** What a pass in which no call raised looks like. *)
Lemma returning_pass (w : World) :
  raised (emitted (iteration respond stdout) w) = [] ->
  exists evs x,
    all_returned respond evs (checks (self w)) /\
    fst (iteration respond stdout w) = Ok tt /\
    snd (iteration respond stdout w)
      = mkWorld (self w) x (clock w + call_time evs + 60)
                (trace w ++ evs ++ [Slept 60]) /\
    emitted (iteration respond stdout) w = evs ++ [Slept 60].
Proof.
  intros Hr. pass_view w.
  - exists evs, x. auto.
  - rewrite raised_app in Hr. apply app_eq_nil in Hr. destruct Hr as [_ Hr].
    discriminate.
  - rewrite raised_app in Hr. apply app_eq_nil in Hr. destruct Hr as [_ Hr].
    discriminate.
  - rewrite raised_app in Hr. apply app_eq_nil in Hr. destruct Hr as [_ Hr].
    discriminate.
  - rewrite raised_app in Hr. apply app_eq_nil in Hr. destruct Hr as [_ Hr].
    discriminate.
Qed.

(** What the handler does with an [Exception] that left the [try] body. *)
Lemma caught_and_printed (w w1 : World) (e : exn) (s : string) :
  try_block respond w = (Raise e, w1) ->
  is_Exception e = true ->
  str e = Text s ->
  fst (stdout (error_line s) (ext w1)) = None ->
  iteration respond stdout w
  = (Ok tt, mkWorld (self w1) (snd (stdout (error_line s) (ext w1))) (clock w1)
                    (trace w1 ++ [Printed (error_line s)])).
Proof.
  intros E Hk Hs Ho. rewrite (iteration_of_raise w w1 e E), Hk.
  apply handler_prints; assumption.
Qed.

Lemma caught_but_unprintable (w w1 : World) (e e' : exn) :
  try_block respond w = (Raise e, w1) ->
  is_Exception e = true ->
  str e = StrRaises e' ->
  iteration respond stdout w = (Raise e', w1).
Proof.
  intros E Hk Hs. rewrite (iteration_of_raise w w1 e E), Hk.
  apply handler_str_raises; assumption.
Qed.

Lemma caught_but_unprinted (w w1 : World) (e : exn) (s : string) (e' : exn) :
  try_block respond w = (Raise e, w1) ->
  is_Exception e = true ->
  str e = Text s ->
  fst (stdout (error_line s) (ext w1)) = Some e' ->
  iteration respond stdout w
  = (Raise e', mkWorld (self w1) (snd (stdout (error_line s) (ext w1)))
                       (clock w1) (trace w1)).
Proof.
  intros E Hk Hs Ho. rewrite (iteration_of_raise w w1 e E), Hk.
  apply handler_print_raises; assumption.
Qed.

(** *** The loop and probe errors *)

(** C1, as the code has it.  In a pass of the loop in which a check
    raises an [Exception], the exception is caught by the [except]
    clause, whose body then runs on it.  If [str(e)] gives a text and
    standard output takes the line, the pass ends normally, the error is
    printed and the loop goes on with the next pass.  If [str(e)] raises,
    or printing the line raises, that exception is caught by nothing and
    ends the loop. *)
Theorem probe_exception_is_caught_and_loop_continues :
  forall (w : World) c e d,
    In (Called c (Raises e) d) (emitted (iteration respond stdout) w) ->
    is_Exception e = true ->
    iteration respond stdout w = handler stdout e (snd (try_block respond w)) /\
    (forall s,
        str e = Text s ->
        fst (stdout (error_line s) (ext (snd (try_block respond w)))) = None ->
        fst (iteration respond stdout w) = Ok tt /\
        In (Printed (error_line s)) (emitted (iteration respond stdout) w) /\
        forall n, monitor respond stdout (S n) w
                  = monitor respond stdout n (snd (iteration respond stdout w))) /\
    (forall e',
        str e = StrRaises e' ->
        fst (iteration respond stdout w) = Raise e' /\
        forall n, fst (monitor respond stdout (S n) w) = Escaped e') /\
    (forall s e',
        str e = Text s ->
        fst (stdout (error_line s) (ext (snd (try_block respond w)))) = Some e' ->
        fst (iteration respond stdout w) = Raise e' /\
        forall n, fst (monitor respond stdout (S n) w) = Escaped e').
Proof.
  intros w c e d Hin Hexc.
  destruct (raising_pass w c e d Hin)
    as (evs & x & pre & post & tail & _ & _ & _ & Htry & Hev & Htail & _).
  rewrite Htry. cbn [snd].
  split; [rewrite (iteration_of_raise _ _ _ Htry), Hexc; reflexivity|].
  split; [|split].
  - intros s Hs Ho.
    pose proof (caught_and_printed _ _ _ _ Htry Hexc Hs Ho) as Hit.
    assert (Hok : fst (iteration respond stdout w) = Ok tt)
      by (rewrite Hit; reflexivity).
    split; [exact Hok|]. split.
    + rewrite Hev. apply in_or_app. right. right.
      destruct Htail as [->|(s' & Hs' & ->)].
      * unfold emitted in Hev. rewrite Hit in Hev. cbn [snd trace] in Hev.
        rewrite (since_extension _ _
                   (evs ++ [Called c (Raises e) d; Printed (error_line s)]))
          in Hev by (cbn [trace]; rewrite <- !app_assoc; reflexivity).
        apply app_inv_head in Hev. discriminate.
      * left. congruence.
    + intros n. apply monitor_step. exact Hok.
  - intros e' Hs.
    pose proof (caught_but_unprintable _ _ _ _ Htry Hexc Hs) as Hit.
    assert (Hr : fst (iteration respond stdout w) = Raise e')
      by (rewrite Hit; reflexivity).
    split; [exact Hr|]. intros n.
    rewrite (monitor_step_escape w n e' Hr). reflexivity.
  - intros s e' Hs Ho.
    pose proof (caught_but_unprinted _ _ _ _ _ Htry Hexc Hs Ho) as Hit.
    assert (Hr : fst (iteration respond stdout w) = Raise e')
      by (rewrite Hit; reflexivity).
    split; [exact Hr|]. intros n.
    rewrite (monitor_step_escape w n e' Hr). reflexivity.
Qed.

(** With checks that only ever raise [Exception]s whose [str] gives a
    text, and a standard output that takes every line, the loop is still
    looping after any number of passes. *)
Theorem monitor_runs_forever :
  (forall c x e, answer (fst (respond c x)) = Raises e ->
                 is_Exception e = true /\ exists s, str e = Text s) ->
  (forall line x, fst (stdout line x) = None) ->
  forall n (w : World), fst (monitor respond stdout n w) = StillLooping.
Proof.
  intros Hcls Hprint. induction n as [|n IH]; intros w.
  - reflexivity.
  - pass_view w.
    + rewrite monitor_step by (symmetry; assumption). apply IH.
    + rewrite monitor_step by (symmetry; assumption). apply IH.
    + exfalso. destruct Hans as (x0 & Hx0).
      destruct (Hcls c0 x0 e0) as (_ & s & Hs); [rewrite Hx0; reflexivity|].
      congruence.
    + exfalso. specialize (Hprint (error_line s0) x). rewrite Hout in Hprint.
      discriminate.
    + exfalso. destruct Hans as (x0 & Hx0).
      destruct (Hcls c0 x0 e0) as (Hk' & _); [rewrite Hx0; reflexivity|].
      congruence.
Qed.

(** An exception outside [Exception] is not caught: it ends the loop. *)
Theorem base_exception_escapes :
  forall (w : World) c e d,
    In (Called c (Raises e) d) (emitted (iteration respond stdout) w) ->
    is_Exception e = false ->
    forall n, fst (monitor respond stdout (S n) w) = Escaped e.
Proof.
  intros w c e d Hin Hexc n.
  destruct (raising_pass w c e d Hin)
    as (evs & x & pre & post & tail & _ & _ & _ & Htry & _).
  assert (Hraise : fst (iteration respond stdout w) = Raise e)
    by (rewrite (iteration_of_raise _ _ _ Htry), Hexc; reflexivity).
  rewrite (monitor_step_escape w n e Hraise). reflexivity.
Qed.

(** C2, as the code has it.  When a check raises, the checks listed after it
    are not invoked in that pass and the sleep is skipped; the calls of
    the pass are the checks up to and including the one that raised.  If
    what was raised is an [Exception] that the handler manages to print,
    the loop goes on with the next pass. *)
Theorem check_failure_abandons_rest_of_cycle :
  forall (w : World) c e d,
    In (Called c (Raises e) d) (emitted (iteration respond stdout) w) ->
    exists pre post,
      checks (self w) = pre ++ c :: post /\
      invoked (emitted (iteration respond stdout) w) = pre ++ [c] /\
      (forall c', In c' post ->
                  ~ In c' (invoked (emitted (iteration respond stdout) w))) /\
      sleeps (emitted (iteration respond stdout) w) = [] /\
      (is_Exception e = true ->
       forall s,
         str e = Text s ->
         fst (stdout (error_line s) (ext (snd (try_block respond w)))) = None ->
         forall n, monitor respond stdout (S n) w
                   = monitor respond stdout n (snd (iteration respond stdout w))).
Proof.
  intros w c e d Hin.
  destruct (raising_pass w c e d Hin)
    as (evs & x & pre & post & tail & Hcs & Hall & _ & Htry & Hev & Htail & _).
  destruct Hall as (_ & Hi & _ & Hs & _).
  pose proof (checks_NoDup (self w)) as Hnd. rewrite Hcs in Hnd.
  apply NoDup_split_apart in Hnd. destruct Hnd as (_ & Hapart).
  exists pre, post.
  assert (Hinv : invoked (emitted (iteration respond stdout) w) = pre ++ [c]).
  { rewrite Hev, invoked_app, Hi.
    destruct Htail as [->|(s & _ & ->)]; reflexivity. }
  assert (Hsl : sleeps (emitted (iteration respond stdout) w) = []).
  { rewrite Hev, sleeps_app, Hs.
    destruct Htail as [->|(s & _ & ->)]; reflexivity. }
  split; [exact Hcs|]. split; [exact Hinv|]. split; [|split].
  - rewrite Hinv. exact Hapart.
  - exact Hsl.
  - intros Hexc s Hstr Ho n. rewrite Htry in Ho. cbn [snd] in Ho.
    apply monitor_step.
    rewrite (caught_and_printed _ _ _ _ Htry Hexc Hstr Ho). reflexivity.
Qed.

(** C3, as the code has it.  The calls of a pass are an initial segment
    of the six checks in their listed order, none of them made twice; when
    no check raises they are all six; when a check raises, it is the only
    one that does and the last one called - the calls are the checks up
    to and including it.  The pass leaves the attributes of the monitor
    as they were: nothing is recorded. *)
Theorem cycle_invokes_checks_in_order_up_to_first_failure :
  forall (w : World),
    (exists rest,
        checks (self w)
        = invoked (emitted (iteration respond stdout) w) ++ rest) /\
    NoDup (invoked (emitted (iteration respond stdout) w)) /\
    (raised (emitted (iteration respond stdout) w) = [] ->
     invoked (emitted (iteration respond stdout) w) = checks (self w)) /\
    (forall c e d,
        In (Called c (Raises e) d) (emitted (iteration respond stdout) w) ->
        raised (emitted (iteration respond stdout) w) = [e] /\
        exists pre post,
          checks (self w) = pre ++ c :: post /\
          invoked (emitted (iteration respond stdout) w) = pre ++ [c]) /\
    self (snd (iteration respond stdout w)) = self w.
Proof.
  intros w. pose proof (checks_NoDup (self w)) as Hnd.
  assert (Hfail : forall c e d,
             In (Called c (Raises e) d) (emitted (iteration respond stdout) w) ->
             raised (emitted (iteration respond stdout) w) = [e] /\
             exists pre post,
               checks (self w) = pre ++ c :: post /\
               invoked (emitted (iteration respond stdout) w) = pre ++ [c]).
  { intros c e d Hin.
    destruct (raising_pass w c e d Hin)
      as (evs & x & pre & post & tail & Hcs & Hall & _ & _ & Hev & Htail & _).
    destruct Hall as (_ & Hi & Hr & _).
    rewrite Hev, raised_app, invoked_app, Hi, Hr.
    split; [destruct Htail as [->|(s & _ & ->)]; reflexivity|].
    exists pre, post. split; [exact Hcs|].
    destruct Htail as [->|(s & _ & ->)]; reflexivity. }
  assert (Hrest : (exists rest,
                      checks (self w)
                      = invoked (emitted (iteration respond stdout) w) ++ rest) /\
                  NoDup (invoked (emitted (iteration respond stdout) w)) /\
                  (raised (emitted (iteration respond stdout) w) = [] ->
                   invoked (emitted (iteration respond stdout) w) = checks (self w)) /\
                  self (snd (iteration respond stdout w)) = self w).
  { destruct (raised (emitted (iteration respond stdout) w)) as [|e l] eqn:Hraised.
    - destruct (returning_pass w Hraised) as (evs & x & Hall & _ & Hw & Hev).
      destruct Hall as (_ & Hi & _).
      assert (Hinv : invoked (emitted (iteration respond stdout) w)
                     = checks (self w)).
      { rewrite Hev, invoked_app, Hi. cbn [invoked]. apply app_nil_r. }
      rewrite Hinv, Hw.
      split; [exists []; rewrite app_nil_r; reflexivity|].
      split; [exact Hnd|]. split; reflexivity.
    - assert (Hin : In e (raised (emitted (iteration respond stdout) w)))
        by (rewrite Hraised; left; reflexivity).
      apply In_raised in Hin. destruct Hin as (c & d & Hin).
      destruct (raising_pass w c e d Hin)
        as (evs & x & pre & post & tail & _ & _ & _ & _ & _ & _ & Hself & _).
      destruct (Hfail c e d Hin) as (_ & pre' & post' & Hcs' & Hinv).
      rewrite Hinv.
      rewrite Hcs' in Hnd. apply NoDup_split_apart in Hnd.
      split; [exists post'; rewrite Hcs', <- app_assoc; reflexivity|].
      split; [apply Hnd|]. split; [discriminate|exact Hself]. }
  destruct Hrest as (H1 & H2 & H3 & H4).
  split; [exact H1|]. split; [exact H2|]. split; [exact H3|].
  split; [exact Hfail|exact H4].
Qed.

(** C4, as the code has it.  A failing probe is not turned into data
    at the call: the call itself raises, the exception leaves the [try]
    body, and it is dealt with only by the loop's own [except Exception]
    clause - the pass is the handler run on the world the [try] body
    left, and when the handler manages to print, the pass ends with the
    printed line (an exception outside [Exception] leaves the loop).
    The attributes of the monitor stay as they were. *)
Theorem probe_exception_propagates_to_loop_handler :
  forall (w : World) c e d,
    In (Called c (Raises e) d) (emitted (try_block respond) w) ->
    (exists w0 : World, fst (invoke respond c w0) = Raise e) /\
    fst (try_block respond w) = Raise e /\
    (is_Exception e = true ->
     iteration respond stdout w = handler stdout e (snd (try_block respond w))) /\
    (is_Exception e = true ->
     forall s,
       str e = Text s ->
       fst (stdout (error_line s) (ext (snd (try_block respond w)))) = None ->
       fst (iteration respond stdout w) = Ok tt /\
       emitted (iteration respond stdout) w
         = emitted (try_block respond) w ++ [Printed (error_line s)]) /\
    (is_Exception e = false -> fst (iteration respond stdout w) = Raise e) /\
    self (snd (iteration respond stdout w)) = self w.
Proof.
  intros w c e d Hin.
  pose proof (try_block_shape w) as Hb.
  unfold emitted in *.
  destruct (try_block respond w) as [r w'] eqn:E; cbn [fst snd] in *.
  destruct Hb as [evs x Hall | evs x e0 d0 pre c0 post Hcs Hall Hans].
  - exfalso.
    rewrite (since_extension _ _ (evs ++ [Slept 60])) in Hin by reflexivity.
    apply in_app_or in Hin. destruct Hin as [Hin|[Hin|[]]].
    + eapply all_returned_no_raise; eauto.
    + discriminate.
  - match type of Hin with
    | In _ (since w ?w1) =>
        assert (Hsince : since w w1 = evs ++ [Called c0 (Raises e0) d0])
          by (apply since_extension; reflexivity)
    end.
    rewrite Hsince in Hin.
    assert (Heq : c = c0 /\ e = e0 /\ d = d0).
    { eapply raise_is_last; [exact Hall| |exact Hin]. intros c' o' d' []. }
    destruct Heq as (-> & -> & ->). clear Hin.
    split.
    { destruct Hans as (x0 & Hx0).
      exists (mkWorld (self w) x0 0 []). unfold invoke. cbn [ext].
      destruct (respond c0 x0) as [rp x1]. cbn [fst] in Hx0. subst rp.
      reflexivity. }
    split; [reflexivity|].
    split; [intros Hk; rewrite (iteration_of_raise _ _ _ E), Hk; reflexivity|].
    split; [|split].
    + intros Hk s Hs Ho.
      rewrite (caught_and_printed _ _ _ _ E Hk Hs Ho). cbn [fst snd].
      split; [reflexivity|]. rewrite Hsince.
      apply since_extension. cbn [trace]. rewrite <- !app_assoc. reflexivity.
    + intros Hk. rewrite (iteration_of_raise _ _ _ E), Hk. reflexivity.
    + rewrite (iteration_of_raise _ _ _ E).
      destruct (is_Exception e0); [|reflexivity].
      destruct (str e0) as [s|e'] eqn:Hs.
      * destruct (fst (stdout (error_line s) x)) as [e'|] eqn:Ho.
        -- match goal with |- context [handler stdout e0 ?w1] =>
             rewrite (handler_print_raises e0 s e' w1 Hs Ho) end.
           reflexivity.
        -- match goal with |- context [handler stdout e0 ?w1] =>
             rewrite (handler_prints e0 s w1 Hs Ho) end.
           reflexivity.
      * rewrite (handler_str_raises e0 e' _ Hs). reflexivity.
Qed.

(** *** The loop and time *)

(** C5, as the code has it.  When the checks of a pass all return, the
    loop then sleeps a fixed 60 seconds, counted from the moment the work
    ended: the next pass starts at tick start + time spent in the checks
    + 60, whatever the checks took. *)
Theorem sleep_is_fixed_and_follows_the_work :
  forall (w : World),
    raised (emitted (iteration respond stdout) w) = [] ->
    exists evs,
      emitted (iteration respond stdout) w = evs ++ [Slept 60] /\
      sleeps evs = [] /\
      fst (iteration respond stdout w) = Ok tt /\
      clock (snd (iteration respond stdout w))
        = clock w + call_time (emitted (iteration respond stdout) w) + 60.
Proof.
  intros w Hr.
  destruct (returning_pass w Hr) as (evs & x & Hall & Hok & Hw & Hev).
  exists evs. rewrite Hev, Hw, call_time_app. simpl.
  destruct Hall as (_ & _ & _ & Hs & _).
  repeat split; auto. lia.
Qed.

(** A check that raises in every state of the collaborators, when
    nothing but [Exception]s with a text is ever raised and standard
    output takes every line: every pass is a failed pass. *)
Lemma always_failing_check (c : Call) :
  (forall x, exists e, answer (fst (respond c x)) = Raises e) ->
  (forall c' x e, answer (fst (respond c' x)) = Raises e ->
                  is_Exception e = true /\ exists s, str e = Text s) ->
  (forall line x, fst (stdout line x) = None) ->
  forall n (w : World),
    In c (checks (self w)) ->
    exists evs,
      fst (monitor respond stdout n w) = StillLooping /\
      trace (snd (monitor respond stdout n w)) = trace w ++ evs /\
      self (snd (monitor respond stdout n w)) = self w /\
      sleeps evs = [] /\
      List.length (printed evs) = n /\
      clock (snd (monitor respond stdout n w)) = clock w + call_time evs.
Proof.
  intros Hfail Hcls Hprint. induction n as [|n IH]; intros w Hc.
  - exists []. simpl. rewrite app_nil_r. repeat split; auto. lia.
  - pass_view w.
    + exfalso. destruct Hall as (HF & Hi & Hr & _).
      rewrite <- Hi in Hc. apply invoked_In in Hc. destruct Hc as (o & d & Hin).
      rewrite Forall_forall in HF. destruct (HF _ Hin) as (x0 & Hx0).
      destruct (Hfail x0) as (e & He). rewrite Hx0 in He. simpl in He. subst o.
      apply raised_In in Hin. rewrite Hr in Hin. destruct Hin.
    + rewrite monitor_step by (symmetry; assumption). rewrite <- Hsnd_.
      set (w1 := mkWorld _ _ _ _).
      destruct (IH w1 Hc) as (evs' & Hl & Ht & Hself & Hs & Hp & Hclk).
      destruct Hall as (_ & _ & _ & Hs0 & Hp0).
      exists ((evs ++ [Called c0 (Raises e0) d0; Printed (error_line s0)]) ++ evs').
      split; [exact Hl|]. split; [|split; [|split; [|split]]].
      * rewrite Ht. unfold w1; cbn [trace]. rewrite <- !app_assoc. reflexivity.
      * rewrite Hself. reflexivity.
      * rewrite !sleeps_app, Hs0, Hs. reflexivity.
      * rewrite !printed_app, Hp0, length_app, Hp. reflexivity.
      * rewrite Hclk, !call_time_app. unfold w1; cbn [clock call_time]. lia.
    + exfalso. destruct Hans as (x0 & Hx0).
      destruct (Hcls c0 x0 e0) as (_ & s & Hs); [rewrite Hx0; reflexivity|].
      congruence.
    + exfalso. specialize (Hprint (error_line s0) x). rewrite Hout in Hprint.
      discriminate.
    + exfalso. destruct Hans as (x0 & Hx0).
      destruct (Hcls c0 x0 e0) as (Hk' & _); [rewrite Hx0; reflexivity|].
      congruence.
Qed.

(** C6, as the code has it.  A pass in which a check raises an
    [Exception] does not sleep: it ends at the instant the failing call
    ended, and when the handler manages to print, the next pass starts
    from there.  If that check fails in every state of the collaborators
    (nothing but [Exception]s with a text being raised, and standard
    output taking every line), the loop runs pass after pass without a
    single sleep: after [n] passes it has printed [n] errors and the only
    time that has gone by is the time spent inside the calls. *)
Theorem failed_cycle_skips_the_sleep :
  forall (w : World) c e d,
    In (Called c (Raises e) d) (emitted (iteration respond stdout) w) ->
    is_Exception e = true ->
    (sleeps (emitted (iteration respond stdout) w) = [] /\
     clock (snd (iteration respond stdout w))
       = clock w + call_time (emitted (iteration respond stdout) w) /\
     forall s,
       str e = Text s ->
       fst (stdout (error_line s) (ext (snd (try_block respond w)))) = None ->
       forall n, monitor respond stdout (S n) w
                 = monitor respond stdout n (snd (iteration respond stdout w))) /\
    ((forall x, exists e', answer (fst (respond c x)) = Raises e') ->
     (forall c' x e', answer (fst (respond c' x)) = Raises e' ->
                      is_Exception e' = true /\ exists s, str e' = Text s) ->
     (forall line x, fst (stdout line x) = None) ->
     forall n,
       fst (monitor respond stdout n w) = StillLooping /\
       sleeps (since w (snd (monitor respond stdout n w))) = [] /\
       List.length (printed (since w (snd (monitor respond stdout n w)))) = n /\
       clock (snd (monitor respond stdout n w))
         = clock w + call_time (since w (snd (monitor respond stdout n w)))).
Proof.
  intros w c e d Hin Hexc.
  destruct (raising_pass w c e d Hin)
    as (evs & x & pre & post & tail & Hcs & Hall & _ & Htry & Hev & Htail & _ & Hclk).
  destruct Hall as (_ & _ & _ & Hs & _).
  split.
  - split; [|split].
    + rewrite Hev, sleeps_app, Hs.
      destruct Htail as [->|(s & _ & ->)]; reflexivity.
    + rewrite Hclk, Hev, call_time_app.
      destruct Htail as [->|(s & _ & ->)]; simpl; lia.
    + intros s Hstr Ho n. rewrite Htry in Ho. cbn [snd] in Ho.
      apply monitor_step.
      rewrite (caught_and_printed _ _ _ _ Htry Hexc Hstr Ho). reflexivity.
  - intros Hfail Hcls Hprint n.
    assert (Hc : In c (checks (self w))).
    { rewrite Hcs. apply in_or_app. right. left. reflexivity. }
    destruct (always_failing_check c Hfail Hcls Hprint n w Hc)
      as (evs' & Hl & Ht & _ & Hs' & Hp' & Hclk').
    rewrite (since_extension _ _ evs' Ht). auto.
Qed.

(** *** The logger *)

(** C7.  [log_status] returns [None] and leaves the whole world as it
    found it: the attributes of the monitor, the collaborators, the
    clock and the trace. *)
Theorem log_status_is_a_noop :
  forall (key_status : value) (w : World),
    log_status key_status w = (Ok VNone, w).
Proof. intros key_status w. reflexivity. Qed.

(** *** The loop over many passes *)

(** What one pass adds to the trace, whatever way it ends. *)
Lemma pass_log (w : World) :
  exists evs,
    trace (snd (iteration respond stdout w)) = trace w ++ evs /\
    self (snd (iteration respond stdout w)) = self w /\
    clock (snd (iteration respond stdout w))
      = clock w + call_time evs + 60 * Z.of_nat (List.length (sleeps evs)) /\
    Forall (fun s => s = 60) (sleeps evs) /\
    Forall (fun c => In c (checks (self w))) (invoked evs) /\
    Forall (fun l => exists e s,
                In e (raised evs) /\ is_Exception e = true /\
                str e = Text s /\ l = error_line s) (printed evs) /\
    match fst (iteration respond stdout w) with
    | Ok _ =>
        (List.length (sleeps evs) + List.length (printed evs) = 1)%nat /\
        Forall (fun e => is_Exception e = true) (raised evs) /\
        exists texts,
          map str (raised evs) = map Text texts /\
          printed evs = map error_line texts
    | Raise _ => sleeps evs = [] /\ printed evs = []
    end.
Proof.
  assert (Hchecks : forall pre c0 post evs,
             checks (self w) = pre ++ c0 :: post ->
             invoked evs = pre ->
             Forall (fun c => In c (checks (self w))) (invoked evs ++ [c0])).
  { intros pre c0 post evs Hcs Hi. apply Forall_forall. intros c Hin.
    rewrite Hcs, Hi in *. apply in_app_or in Hin. apply in_or_app.
    destruct Hin as [Hin|[Hin|[]]]; [left; exact Hin|right; left; exact Hin]. }
  pass_view w.
  - destruct Hall as (_ & Hi & Hr & Hs & Hp).
    exists (evs ++ [Slept 60]). cbn [self clock trace].
    rewrite sleeps_app, printed_app, raised_app, invoked_app, call_time_app,
      Hs, Hp, Hr, Hi.
    cbn [app sleeps printed raised invoked call_time map List.length].
    rewrite ?app_nil_r.
    repeat split; auto; try lia.
    + apply Forall_forall. auto.
    + exists []. auto.
  - destruct Hall as (_ & Hi & Hr & Hs & Hp).
    exists (evs ++ [Called c0 (Raises e0) d0; Printed (error_line s0)]).
    cbn [self clock trace].
    rewrite sleeps_app, printed_app, raised_app, invoked_app, call_time_app,
      Hs, Hp, Hr.
    cbn [app sleeps printed raised invoked call_time map List.length].
    repeat split; auto; try lia.
    + eapply Hchecks; eauto.
    + constructor; [|constructor]. exists e0, s0. simpl. auto.
    + exists [s0]. simpl. rewrite Hstr. auto.
  - destruct Hall as (_ & Hi & Hr & Hs & Hp).
    exists (evs ++ [Called c0 (Raises e0) d0]).
    cbn [self clock trace].
    rewrite sleeps_app, printed_app, raised_app, invoked_app, call_time_app,
      Hs, Hp, Hr.
    cbn [app sleeps printed raised invoked call_time map List.length].
    repeat split; auto; try lia.
    eapply Hchecks; eauto.
  - destruct Hall as (_ & Hi & Hr & Hs & Hp).
    exists (evs ++ [Called c0 (Raises e0) d0]).
    cbn [self clock trace].
    rewrite sleeps_app, printed_app, raised_app, invoked_app, call_time_app,
      Hs, Hp, Hr.
    cbn [app sleeps printed raised invoked call_time map List.length].
    repeat split; auto; try lia.
    eapply Hchecks; eauto.
  - destruct Hall as (_ & Hi & Hr & Hs & Hp).
    exists (evs ++ [Called c0 (Raises e0) d0]).
    cbn [self clock trace].
    rewrite sleeps_app, printed_app, raised_app, invoked_app, call_time_app,
      Hs, Hp, Hr.
    cbn [app sleeps printed raised invoked call_time map List.length].
    repeat split; auto; try lia.
    eapply Hchecks; eauto.
Qed.

(** What [n] passes add to the trace. *)
Lemma loop_log (n : nat) :
  forall w : World,
  exists evs,
    trace (snd (monitor respond stdout n w)) = trace w ++ evs /\
    self (snd (monitor respond stdout n w)) = self w /\
    clock (snd (monitor respond stdout n w))
      = clock w + call_time evs + 60 * Z.of_nat (List.length (sleeps evs)) /\
    Forall (fun s => s = 60) (sleeps evs) /\
    Forall (fun c => In c (checks (self w))) (invoked evs) /\
    Forall (fun l => exists e s,
                In e (raised evs) /\ is_Exception e = true /\
                str e = Text s /\ l = error_line s) (printed evs) /\
    match fst (monitor respond stdout n w) with
    | StillLooping =>
        (List.length (sleeps evs) + List.length (printed evs) = n)%nat /\
        Forall (fun e => is_Exception e = true) (raised evs) /\
        exists texts,
          map str (raised evs) = map Text texts /\
          printed evs = map error_line texts
    | Escaped _ =>
        (List.length (sleeps evs) + List.length (printed evs) < n)%nat
    end.
Proof.
  induction n as [|n IH]; intros w.
  - exists []. simpl. rewrite app_nil_r. repeat split; auto; try lia.
    exists []. auto.
  - destruct (pass_log w)
      as (evs1 & Ht1 & Hself1 & Hc1 & Hs1 & Hi1 & Hl1 & Hm1).
    pose proof (monitor_step w n) as Hstep.
    pose proof (monitor_step_escape w n) as Hesc.
    destruct (iteration respond stdout w) as [[[]|e] w1]; cbn [fst snd] in *.
    + rewrite Hstep by reflexivity. clear Hstep Hesc.
      destruct (IH w1)
        as (evs2 & Ht2 & Hself2 & Hc2 & Hs2 & Hi2 & Hl2 & Hm2).
      exists (evs1 ++ evs2).
      rewrite sleeps_app, printed_app, raised_app, invoked_app, call_time_app,
        !length_app.
      split; [rewrite Ht2, Ht1, app_assoc; reflexivity|].
      split; [congruence|].
      split; [rewrite Hc2, Hc1; lia|].
      split; [apply Forall_app; auto|].
      split; [apply Forall_app; split; auto; rewrite <- Hself1; exact Hi2|].
      split.
      { apply Forall_app. split.
        - eapply Forall_impl; [|exact Hl1].
          intros l (e & s & Hin & Hk & Hs & Hl). exists e, s.
          repeat split; auto. apply in_or_app. left. exact Hin.
        - eapply Forall_impl; [|exact Hl2].
          intros l (e & s & Hin & Hk & Hs & Hl). exists e, s.
          repeat split; auto. apply in_or_app. right. exact Hin. }
      destruct Hm1 as (Hn1 & Hr1 & texts1 & Hx1 & Hp1).
      destruct (fst (monitor respond stdout n w1)).
      * destruct Hm2 as (Hn2 & Hr2 & texts2 & Hx2 & Hp2).
        split; [lia|]. split; [apply Forall_app; auto|].
        exists (texts1 ++ texts2). rewrite !map_app. split; congruence.
      * lia.
    + rewrite (Hesc e eq_refl). clear Hstep Hesc. cbn [fst snd].
      exists evs1. destruct Hm1 as (Hs0 & Hp0).
      repeat split; auto.
      rewrite Hs0, Hp0. simpl. lia.
Qed.

(** Every pass either sleeps 60 seconds or prints one error: after [n]
    passes that left the loop running, sleeps and printed errors add up
    to [n], every sleep is of 60 seconds, and the clock has advanced by
    the time spent in the calls plus 60 seconds per sleep.  The monitor's
    attributes are never rebound. *)
Theorem every_pass_sleeps_or_prints :
  forall (n : nat) (w : World),
    self (snd (monitor respond stdout n w)) = self w /\
    Forall (fun s => s = 60) (sleeps (since w (snd (monitor respond stdout n w)))) /\
    clock (snd (monitor respond stdout n w))
      = clock w + call_time (since w (snd (monitor respond stdout n w)))
        + 60 * Z.of_nat (List.length
                           (sleeps (since w (snd (monitor respond stdout n w))))) /\
    (fst (monitor respond stdout n w) = StillLooping ->
     (List.length (sleeps (since w (snd (monitor respond stdout n w))))
      + List.length (printed (since w (snd (monitor respond stdout n w)))) = n)%nat).
Proof.
  intros n w.
  destruct (loop_log n w) as (evs & Ht & Hself & Hc & Hs & _ & _ & Hm).
  rewrite (since_extension _ _ evs Ht).
  repeat split; auto.
  intros Hl. rewrite Hl in Hm. apply Hm.
Qed.

(** Every line the loop prints is ["Monitoring error: "] followed by the
    text [str(e)] of an [Exception] a check raised.  As long as the loop
    is running there is exactly one such line for each exception a check
    raised, in the order they were raised, and each of them was an
    [Exception] whose [str] gave a text. *)
Theorem printed_lines_are_the_caught_exceptions :
  forall (n : nat) (w : World),
    Forall (fun l => exists e s,
                In e (raised (since w (snd (monitor respond stdout n w)))) /\
                is_Exception e = true /\ str e = Text s /\ l = error_line s)
           (printed (since w (snd (monitor respond stdout n w)))) /\
    (fst (monitor respond stdout n w) = StillLooping ->
     Forall (fun e => is_Exception e = true)
            (raised (since w (snd (monitor respond stdout n w)))) /\
     exists texts,
       map str (raised (since w (snd (monitor respond stdout n w))))
         = map Text texts /\
       printed (since w (snd (monitor respond stdout n w)))
         = map error_line texts).
Proof.
  intros n w.
  destruct (loop_log n w) as (evs & Ht & _ & _ & _ & _ & Hl & Hm).
  rewrite (since_extension _ _ evs Ht).
  split; [exact Hl|].
  intros Hloop. rewrite Hloop in Hm. apply Hm.
Qed.

(** The loop never calls anything but the six checks on the monitor's
    own six attributes. *)
Theorem loop_calls_only_the_six_checks :
  forall (n : nat) (w : World) (c : Call),
    In c (invoked (since w (snd (monitor respond stdout n w)))) ->
    In c (checks (self w)).
Proof.
  intros n w c.
  destruct (loop_log n w) as (evs & Ht & _ & _ & _ & Hi & _).
  rewrite (since_extension _ _ evs Ht).
  rewrite Forall_forall in Hi. apply Hi.
Qed.

(** When no check ever raises, the loop is a steady rhythm: [n] passes
    call the six checks [n] times over, in order, sleep 60 seconds [n]
    times, print nothing, and leave the loop running. *)
Theorem healthy_loop_is_steady :
  (forall c x, exists v, answer (fst (respond c x)) = Returns v) ->
  forall (n : nat) (w : World),
    fst (monitor respond stdout n w) = StillLooping /\
    invoked (since w (snd (monitor respond stdout n w)))
      = List.concat (repeat (checks (self w)) n) /\
    sleeps (since w (snd (monitor respond stdout n w))) = repeat 60 n /\
    printed (since w (snd (monitor respond stdout n w))) = [].
Proof.
  intros Hfine n w.
  assert (Hno : forall c e d, ~ answered_by respond (Called c (Raises e) d)).
  { intros c e d (x & Hx). destruct (Hfine c x) as (v & Hv).
    rewrite Hx in Hv. discriminate. }
  assert (H : exists evs,
             trace (snd (monitor respond stdout n w)) = trace w ++ evs /\
             fst (monitor respond stdout n w) = StillLooping /\
             invoked evs = List.concat (repeat (checks (self w)) n) /\
             sleeps evs = repeat 60 n /\ printed evs = []).
  { revert w. induction n as [|n IH]; intros w.
    - exists []. simpl. rewrite app_nil_r. auto.
    - pass_view w; try (exfalso; eapply Hno; eassumption).
      rewrite monitor_step by (symmetry; assumption). rewrite <- Hsnd_.
      set (w1 := mkWorld _ _ _ _).
      destruct (IH w1) as (evs' & Ht & Hl & Hi & Hs & Hp).
      destruct Hall as (_ & Hi0 & _ & Hs0 & Hp0).
      exists ((evs ++ [Slept 60]) ++ evs').
      split; [rewrite Ht; unfold w1; cbn [trace];
              rewrite <- !app_assoc; reflexivity|].
      split; [exact Hl|].
      rewrite !invoked_app, !sleeps_app, !printed_app, Hi0, Hs0, Hp0, Hi, Hs, Hp.
      cbn [invoked sleeps printed repeat List.concat self w1].
      rewrite app_nil_r. auto. }
  destruct H as (evs & Ht & Hl & Hi & Hs & Hp).
  rewrite (since_extension _ _ evs Ht). auto.
Qed.

End MonitorFacts.

(* ================================================================== *)
(** ** The loop and the values the checks return *)
(* ================================================================== *)

Section ValueBlindness.
Import Monitor.
Variable Ext : Type.
Variables r1 r2 : Call -> Ext -> reply * Ext.
Variable stdout : string -> Ext -> option exn * Ext.
Hypothesis Hsame : same_but_for_values r1 r2.

Local Abbreviation World := (Effects.World Call SecurityMonitor Ext).

Lemma invoked_blank (l : list (event Call)) : invoked (map blank l) = invoked l.
Proof.
  induction l as [|[c [v|e] d|s|p] l IH]; simpl; rewrite ?IH; reflexivity.
Qed.

Lemma raised_blank (l : list (event Call)) : raised (map blank l) = raised l.
Proof.
  induction l as [|[c [v|e] d|s|p] l IH]; simpl; rewrite ?IH; reflexivity.
Qed.

Lemma sleeps_blank (l : list (event Call)) : sleeps (map blank l) = sleeps l.
Proof.
  induction l as [|[c [v|e] d|s|p] l IH]; simpl; rewrite ?IH; reflexivity.
Qed.

Lemma printed_blank (l : list (event Call)) : printed (map blank l) = printed l.
Proof.
  induction l as [|[c [v|e] d|s|p] l IH]; simpl; rewrite ?IH; reflexivity.
Qed.

Lemma alike_record (w1 w2 : World) (e1 e2 : event Call) :
  alike w1 w2 -> blank e1 = blank e2 -> alike (record e1 w1) (record e2 w2).
Proof.
  intros (Hs & Hx & Hc & Ht) He. unfold alike, record; simpl.
  rewrite !map_app, Ht. simpl. rewrite He. auto.
Qed.

Lemma in_turn_alike (cs : list Call) :
  forall w1 w2 : World,
    alike w1 w2 ->
    alike (snd (in_turn r1 cs w1)) (snd (in_turn r2 cs w2)) /\
    match fst (in_turn r1 cs w1), fst (in_turn r2 cs w2) with
    | Ok _, Ok _ => True
    | Raise e1, Raise e2 => e1 = e2
    | _, _ => False
    end.
Proof.
  induction cs as [|c cs IH]; intros w1 w2 Hal.
  - simpl. auto.
  - destruct w1 as [s1 x1 t1 tr1], w2 as [s2 x2 t2 tr2].
    destruct Hal as (Hs & Hx & Hc & Ht). simpl in Hs, Hx, Hc, Ht. subst s2 x2 t2.
    destruct (Hsame c x1) as (A & B & C).
    destruct (r1 c x1) as [[[v1|e1] d1] y1] eqn:R1;
      destruct (r2 c x1) as [[[v2|e2] d2] y2] eqn:R2;
      simpl in A, B, C; try discriminate; subst y2 d2.
    + rewrite (in_turn_cons_returns Ext r1 c cs (mkWorld s1 x1 t1 tr1) v1 d1 y1 R1).
      rewrite (in_turn_cons_returns Ext r2 c cs (mkWorld s1 x1 t1 tr2) v2 d1 y1 R2).
      cbn [self ext clock trace].
      match goal with
      | |- context [in_turn r1 cs ?a] =>
          match goal with
          | |- context [in_turn r2 cs ?b] =>
              assert (Hal' : alike a b)
                by (unfold alike; simpl; rewrite !map_app, Ht; auto);
              destruct (IH a b Hal') as (Hw & Hr);
              destruct (in_turn r1 cs a) as [[vs1|e1] a'];
              destruct (in_turn r2 cs b) as [[vs2|e2] b']
          end
      end; cbn [fst snd] in *; auto.
    + inversion C; subst e2.
      rewrite (in_turn_cons_raises Ext r1 c cs (mkWorld s1 x1 t1 tr1) e1 d1 y1 R1).
      rewrite (in_turn_cons_raises Ext r2 c cs (mkWorld s1 x1 t1 tr2) e1 d1 y1 R2).
      cbn [fst snd self ext clock trace]. split; [|reflexivity].
      unfold alike; simpl. rewrite !map_app, Ht. auto.
Qed.

Lemma try_block_alike (w1 w2 : World) :
  alike w1 w2 ->
  alike (snd (try_block r1 w1)) (snd (try_block r2 w2)) /\
  fst (try_block r1 w1) = fst (try_block r2 w2).
Proof.
  intros Hal. rewrite !try_block_in_turn.
  assert (Hself : self w1 = self w2) by apply Hal.
  rewrite Hself.
  destruct (in_turn_alike (checks (self w2)) w1 w2 Hal) as (Hw & Hr).
  unfold bind, log_status, ret, sleep.
  destruct (in_turn r1 (checks (self w2)) w1) as [[vs1|e1] a];
    destruct (in_turn r2 (checks (self w2)) w2) as [[vs2|e2] b];
    cbn [fst snd] in *; try contradiction.
  - split; [|reflexivity].
    apply alike_record; [|reflexivity].
    destruct Hw as (Hs & Hx & Hc & Ht). unfold alike; simpl.
    repeat split; auto. congruence.
  - subst e2. auto.
Qed.

Lemma handler_alike (e : exn) (w1 w2 : World) :
  alike w1 w2 ->
  alike (snd (handler stdout e w1)) (snd (handler stdout e w2)) /\
  fst (handler stdout e w1) = fst (handler stdout e w2).
Proof.
  intros (Hs & Hx & Hc & Ht). unfold handler, str_of, bind, print, record.
  destruct (str e) as [s|e']; cbn [ret raise].
  - rewrite Hx.
    destruct (stdout (error_line s) (ext w2)) as [[e'|] x]; cbn [fst snd];
      (split; [|reflexivity]); unfold alike; cbn [self ext clock trace];
      rewrite ?map_app, ?Ht; auto.
  - split; [unfold alike; auto|reflexivity].
Qed.

Lemma iteration_alike (w1 w2 : World) :
  alike w1 w2 ->
  alike (snd (iteration r1 stdout w1)) (snd (iteration r2 stdout w2)) /\
  fst (iteration r1 stdout w1) = fst (iteration r2 stdout w2).
Proof.
  intros Hal. unfold iteration, try_except_Exception.
  destruct (try_block_alike w1 w2 Hal) as (Hw & Hr).
  destruct (try_block r1 w1) as [[u1|e1] a];
    destruct (try_block r2 w2) as [[u2|e2] b];
    cbn [fst snd] in *; try discriminate.
  - auto.
  - inversion Hr; subst e2. destruct (is_Exception e1).
    + apply handler_alike. exact Hw.
    + auto.
Qed.

Lemma monitor_alike (n : nat) :
  forall w1 w2 : World,
    alike w1 w2 ->
    alike (snd (monitor r1 stdout n w1)) (snd (monitor r2 stdout n w2)) /\
    fst (monitor r1 stdout n w1) = fst (monitor r2 stdout n w2).
Proof.
  induction n as [|n IH]; intros w1 w2 Hal.
  - simpl. auto.
  - simpl. destruct (iteration_alike w1 w2 Hal) as (Hw & Hr).
    destruct (iteration r1 stdout w1) as [[u1|e1] a];
      destruct (iteration r2 stdout w2) as [[u2|e2] b];
      cbn [fst snd] in *; try discriminate.
    + apply IH. exact Hw.
    + inversion Hr; subst e2. auto.
Qed.

(** The loop does nothing with what the checks return - [key_status]
    included: with collaborators that raise the same exceptions, take the
    same time and move to the same states, but return other values, the
    loop makes the same calls, catches the same exceptions, prints the
    same lines, sleeps the same sleeps and stands in the same state at
    the same time. *)
Theorem loop_ignores_returned_values :
  forall (n : nat) (w : World),
    fst (monitor r1 stdout n w) = fst (monitor r2 stdout n w) /\
    clock (snd (monitor r1 stdout n w)) = clock (snd (monitor r2 stdout n w)) /\
    ext (snd (monitor r1 stdout n w)) = ext (snd (monitor r2 stdout n w)) /\
    invoked (trace (snd (monitor r1 stdout n w))) = invoked (trace (snd (monitor r2 stdout n w))) /\
    raised (trace (snd (monitor r1 stdout n w))) = raised (trace (snd (monitor r2 stdout n w))) /\
    printed (trace (snd (monitor r1 stdout n w))) = printed (trace (snd (monitor r2 stdout n w))) /\
    sleeps (trace (snd (monitor r1 stdout n w))) = sleeps (trace (snd (monitor r2 stdout n w))).
Proof.
  intros n w.
  assert (Hal : alike w w) by (unfold alike; auto).
  destruct (monitor_alike n w w Hal) as ((Hs & Hx & Hc & Ht) & Hr).
  split; [exact Hr|]. split; [exact Hc|]. split; [exact Hx|].
  rewrite <- (invoked_blank (trace (snd (monitor r1 stdout n w)))),
          <- (raised_blank (trace (snd (monitor r1 stdout n w)))),
          <- (printed_blank (trace (snd (monitor r1 stdout n w)))),
          <- (sleeps_blank (trace (snd (monitor r1 stdout n w)))).
  rewrite Ht.
  rewrite invoked_blank, raised_blank, printed_blank, sleeps_blank.
  repeat split.
Qed.

End ValueBlindness.

(* ================================================================== *)
(** ** Construction and the script entry point *)
(* ================================================================== *)

Section Stepping.
Context {Call Self Ext : Type}.
Variable respond : Call -> Ext -> reply * Ext.

(** A call that returns, followed by the rest of the method. *)
Lemma step_returns {A} (c : Call) (k : value -> M Call Self Ext A)
      (w : World Call Self Ext) v d x :
  respond c (ext w) = (mkReply (Returns v) d, x) ->
  bind (invoke respond c) k w
  = k v (mkWorld (self w) x (clock w + d) (trace w ++ [Called c (Returns v) d])).
Proof. intros R. unfold bind, invoke. rewrite R. reflexivity. Qed.

(** A call that raises ends the method there. *)
Lemma step_raises {A} (c : Call) (k : value -> M Call Self Ext A)
      (w : World Call Self Ext) e d x :
  respond c (ext w) = (mkReply (Raises e) d, x) ->
  bind (invoke respond c) k w
  = (Raise e,
     mkWorld (self w) x (clock w + d) (trace w ++ [Called c (Raises e) d])).
Proof. intros R. unfold bind, invoke. rewrite R. reflexivity. Qed.

Lemma step_setattr {A} (f : Self -> Self) (k : unit -> M Call Self Ext A)
      (w : World Call Self Ext) :
  bind (setattr f) k w = k tt (mkWorld (f (self w)) (ext w) (clock w) (trace w)).
Proof. reflexivity. Qed.

End Stepping.

Section StartupFacts.
Import Startup.
Variable Ext : Type.
Variable construct : constructor -> Ext -> reply * Ext.
Variable respond : Monitor.Call -> Ext -> reply * Ext.
Variable stdout : string -> Ext -> option exn * Ext.

Local Abbreviation World := (Effects.World constructor Attributes Ext).

Ltac construct_next E c :=
  let v := fresh "v" in
  let e := fresh "e" in
  let d := fresh "d" in
  let x := fresh "x" in
  let R := fresh "R" in
  match type of E with
  | context [bind (invoke construct c) _ ?w1] =>
      destruct (construct c (ext w1)) as [[[v|e] d] x] eqn:R;
      [ rewrite (step_returns construct c _ w1 v d x R) in E;
        rewrite step_setattr in E; cbn [self ext clock trace] in E
      | rewrite (step_raises construct c _ w1 e d x R) in E;
        cbn [self ext clock trace] in E ]
  end.

Ltac close_construction E w :=
  rewrite <- ?app_assoc in E; cbn [app] in E;
  match type of E with
  | (_, mkWorld ?a ?x _ (trace w ++ ?L)) = _ =>
      exists L, x, a; inversion E; subst; clear E; cbn [fst snd]
  end.

(** The ways [__init__] can end, with what it traced. *)
Ltac give_prefix :=
  match goal with
  | |- exists _ _, _ /\ ?L = _ /\ _ =>
      exists (removelast L); eexists; repeat split
  end.

Lemma init_shape (w : World) :
  exists evs x a,
    snd (__init__ construct w)
      = mkWorld a x (clock w + call_time evs) (trace w ++ evs) /\
    sleeps evs = [] /\ printed evs = [] /\
    match fst (__init__ construct w) with
    | Ok v =>
        v = VNone /\ invoked evs = constructors /\ raised evs = [] /\
        [key_manager a; tf_privacy a; clip a; deepexploit a; aihids a; caldera a]
          = map Some (returned evs)
    | Raise e =>
        exists pre c post evs0 d,
          constructors = pre ++ c :: post /\
          evs = evs0 ++ [Called c (Raises e) d] /\
          invoked evs0 = pre /\ raised evs0 = []
    end.
Proof.
  destruct (__init__ construct w) as [r w'] eqn:E. unfold __init__ in E.
  construct_next E KeyManager;
    [construct_next E TensorFlowPrivacyMonitor;
      [construct_next E ClipAnomalyDetector;
        [construct_next E DeepExploitScanner;
          [construct_next E AIHIDS;
            [construct_next E CalderaPentest; [unfold ret in E|]|]|]|]|]|];
    close_construction E w;
    (split; [f_equal; cbn [call_time]; lia|]);
    (split; [reflexivity|]); (split; [reflexivity|]).
  - repeat split.
  - exists [KeyManager; TensorFlowPrivacyMonitor; ClipAnomalyDetector;
            DeepExploitScanner; AIHIDS], CalderaPentest, [].
    give_prefix.
  - exists [KeyManager; TensorFlowPrivacyMonitor; ClipAnomalyDetector;
            DeepExploitScanner], AIHIDS, [CalderaPentest].
    give_prefix.
  - exists [KeyManager; TensorFlowPrivacyMonitor; ClipAnomalyDetector],
      DeepExploitScanner, [AIHIDS; CalderaPentest].
    give_prefix.
  - exists [KeyManager; TensorFlowPrivacyMonitor], ClipAnomalyDetector,
      [DeepExploitScanner; AIHIDS; CalderaPentest].
    give_prefix.
  - exists [KeyManager], TensorFlowPrivacyMonitor,
      [ClipAnomalyDetector; DeepExploitScanner; AIHIDS; CalderaPentest].
    give_prefix.
  - exists [], KeyManager,
      [TensorFlowPrivacyMonitor; ClipAnomalyDetector; DeepExploitScanner;
       AIHIDS; CalderaPentest].
    give_prefix.
Qed.

(** When [__init__] returns, it has instantiated the six collaborator
    classes once each, in the order KeyManager, TensorFlowPrivacyMonitor,
    ClipAnomalyDetector, DeepExploitScanner, AIHIDS, CalderaPentest, and
    the six attributes hold, in that order, the six objects the
    instantiations returned. *)
Theorem init_binds_each_attribute_to_its_own_instance :
  forall (w : World) (v : value),
    fst (__init__ construct w) = Ok v ->
    v = VNone /\
    invoked (emitted (__init__ construct) w) = constructors /\
    [ key_manager (self (snd (__init__ construct w)));
      tf_privacy (self (snd (__init__ construct w)));
      clip (self (snd (__init__ construct w)));
      deepexploit (self (snd (__init__ construct w)));
      aihids (self (snd (__init__ construct w)));
      caldera (self (snd (__init__ construct w))) ]
    = map Some (returned (emitted (__init__ construct) w)).
Proof.
  intros w v Hok.
  destruct (init_shape w) as (evs & x & a & Hw & _ & _ & Hm).
  rewrite Hok in Hm. destruct Hm as (Hv & Hi & _ & Ha).
  rewrite (emitted_of_extension _ w evs) by (rewrite Hw; reflexivity).
  rewrite Hw. cbn [self]. auto.
Qed.

(** An exception raised while a collaborator is instantiated is not
    caught, of whatever class it is: the script ends with it before the
    loop is entered, the classes listed after the failing one are never
    instantiated, and nothing is printed. *)
Theorem constructor_failure_ends_the_script :
  forall (x : Ext) (t : Z) (e : exn),
    fst (__init__ construct (mkWorld unbound x t [])) = Raise e ->
    forall passes,
      main construct respond stdout passes x t
        = ConstructionFailed e (snd (__init__ construct (mkWorld unbound x t []))) /\
      printed (trace (snd (__init__ construct (mkWorld unbound x t [])))) = [] /\
      exists pre c post,
        constructors = pre ++ c :: post /\
        invoked (trace (snd (__init__ construct (mkWorld unbound x t []))))
          = pre ++ [c] /\
        raised (trace (snd (__init__ construct (mkWorld unbound x t []))))
          = [e].
Proof.
  intros x t e Hraise passes.
  destruct (init_shape (mkWorld unbound x t [])) as (evs & x' & a & Hw & _ & Hp & Hm).
  rewrite Hraise in Hm.
  destruct Hm as (pre & c & post & evs0 & d & Hcs & Hev & Hi & Hr).
  split; [|split].
  - unfold main.
    destruct (__init__ construct (mkWorld unbound x t [])) as [[v|e'] w1];
      cbn [fst snd] in *; [discriminate|]. congruence.
  - rewrite Hw. cbn [trace app]. exact Hp.
  - exists pre, c, post. rewrite Hw. cbn [trace app].
    rewrite Hev, invoked_app, raised_app, Hi, Hr. auto.
Qed.


End StartupFacts.

(* ================================================================== *)
(** ** The plugin *)
(* ================================================================== *)

Section PluginFacts.
Import Plugin.
Variable Ext : Type.
Variable respond : Call -> Ext -> reply * Ext.
Variable base_init : PQCPlugin -> Ext -> reply * PQCPlugin * Ext.
Variable iterate : value -> Ext -> (list value + exn) * Ext.
Variable unpack_error : value -> exn.

Local Abbreviation World := (Effects.World Call PQCPlugin Ext).

(** A call that returns, followed by the rest of the method. *)
Lemma bind_invoke_returns {A} (c : Call) (k : value -> Effects.M Call PQCPlugin Ext A)
      (w : World) (v : value) :
  answer (fst (respond c (ext w))) = Returns v ->
  bind (invoke respond c) k w
  = k v (mkWorld (self w) (snd (respond c (ext w)))
                 (clock w + took (fst (respond c (ext w))))
                 (trace w ++ [Called c (Returns v) (took (fst (respond c (ext w))))])).
Proof.
  unfold bind, invoke. destruct (respond c (ext w)) as [r x]. simpl.
  intros ->. reflexivity.
Qed.

(** A call that raises ends the method there. *)
Lemma bind_invoke_raises {A} (c : Call) (k : value -> Effects.M Call PQCPlugin Ext A)
      (w : World) (e : exn) :
  answer (fst (respond c (ext w))) = Raises e ->
  bind (invoke respond c) k w
  = (Raise e,
     mkWorld (self w) (snd (respond c (ext w)))
             (clock w + took (fst (respond c (ext w))))
             (trace w ++ [Called c (Raises e) (took (fst (respond c (ext w))))])).
Proof.
  unfold bind, invoke. destruct (respond c (ext w)) as [r x]. simpl.
  intros ->. reflexivity.
Qed.

Lemma bind_unpack2_pair {A} (a b : value)
      (k : value * value -> Effects.M Call PQCPlugin Ext A) (w : World) :
  bind (unpack2 iterate unpack_error (VTuple [a; b])) k w = k (a, b) w.
Proof. reflexivity. Qed.

(** With collaborators that answer, [execute] runs to its [return]. *)
Lemma execute_runs (operation : value) (w : World) :
  answers respond ->
  exists evs x t,
    execute respond iterate unpack_error operation w
      = (Ok (VBool true), mkWorld (self w) x t (trace w ++ evs)) /\
    invoked evs
      = [ log_info "Executing PQC testing";
          kyber512_keypair;
          log_info "Generated Kyber key pair";
          dilithium2_keypair;
          log_info "Generated Dilithium key pair" ] /\
    raised evs = [] /\ sleeps evs = [] /\ printed evs = [].
Proof.
  intros (Hlog & Hkem & Hsig). unfold execute.
  destruct (Hlog "Executing PQC testing" (ext w)) as (v1 & H1).
  rewrite (bind_invoke_returns _ _ _ _ H1).
  match goal with |- context [bind (invoke respond kyber512_keypair) _ ?w1] =>
    destruct (Hkem (ext w1)) as (pk & sk & H2);
    rewrite (bind_invoke_returns _ _ w1 _ H2) end.
  rewrite bind_unpack2_pair.
  match goal with |- context [bind (invoke respond (log_info ?m)) _ ?w1] =>
    destruct (Hlog m (ext w1)) as (v3 & H3);
    rewrite (bind_invoke_returns _ _ w1 _ H3) end.
  match goal with |- context [bind (invoke respond dilithium2_keypair) _ ?w1] =>
    destruct (Hsig (ext w1)) as (pk' & sk' & H4);
    rewrite (bind_invoke_returns _ _ w1 _ H4) end.
  rewrite bind_unpack2_pair.
  match goal with |- context [bind (invoke respond (log_info ?m)) _ ?w1] =>
    destruct (Hlog m (ext w1)) as (v5 & H5);
    rewrite (bind_invoke_returns _ _ w1 _ H5) end.
  unfold ret. cbn [self ext clock trace].
  rewrite <- !app_assoc. cbn [app].
  eexists _, _, _. split; [reflexivity|].
  repeat split.
Qed.

(** C8.  Whatever the operation, and whatever keys come back, [execute]
    generates exactly two key pairs - a Kyber512 one, then a Dilithium2
    one, each requested once - and returns [True]; no call is repeated,
    nothing is checked, and the attributes of the plugin are as before,
    so neither pair is kept.  (The collaborators are taken to answer:
    the logger returns and each generator returns a pair.) *)
Theorem execute_generates_two_key_pairs_and_returns_True :
  forall (operation : value) (w : World),
    answers respond ->
    fst (execute respond iterate unpack_error operation w) = Ok (VBool true) /\
    filter is_keygen (invoked (emitted (execute respond iterate unpack_error operation) w))
      = [kyber512_keypair; dilithium2_keypair] /\
    invoked (emitted (execute respond iterate unpack_error operation) w)
      = [ log_info "Executing PQC testing";
          kyber512_keypair;
          log_info "Generated Kyber key pair";
          dilithium2_keypair;
          log_info "Generated Dilithium key pair" ] /\
    raised (emitted (execute respond iterate unpack_error operation) w) = [] /\
    self (snd (execute respond iterate unpack_error operation w)) = self w.
Proof.
  intros operation w Hans.
  destruct (execute_runs operation w Hans) as (evs & x & t & Hrun & Hi & Hr & _).
  rewrite (emitted_of_extension _ w evs) by (rewrite Hrun; reflexivity).
  rewrite Hrun, Hi, Hr. repeat split.
Qed.

(** C9.  Two runs of [execute] from the same world with different
    operations are the same run: same result, same calls, same world
    afterwards; with collaborators that answer, both return [True]. *)
Theorem execute_ignores_its_operation :
  forall (op1 op2 : value) (w : World),
    execute respond iterate unpack_error op1 w = execute respond iterate unpack_error op2 w /\
    emitted (execute respond iterate unpack_error op1) w
      = emitted (execute respond iterate unpack_error op2) w /\
    (answers respond ->
     fst (execute respond iterate unpack_error op1 w) = Ok (VBool true) /\
     fst (execute respond iterate unpack_error op2 w) = Ok (VBool true)).
Proof.
  intros op1 op2 w. split; [reflexivity|]. split; [reflexivity|].
  intros Hans.
  destruct (execute_runs op1 w Hans) as (evs & x & t & Hrun & _).
  destruct (execute_runs op2 w Hans) as (evs' & x' & t' & Hrun' & _).
  rewrite Hrun, Hrun'. split; reflexivity.
Qed.

(** A key generator that raises is not called again: the exception ends
    [execute]. *)
Theorem execute_does_not_retry :
  forall (operation : value) (w : World) (v : value) (e : exn),
    answer (fst (respond (log_info "Executing PQC testing") (ext w))) = Returns v ->
    answer (fst (respond kyber512_keypair
                   (snd (respond (log_info "Executing PQC testing") (ext w)))))
      = Raises e ->
    fst (execute respond iterate unpack_error operation w) = Raise e /\
    filter is_keygen (invoked (emitted (execute respond iterate unpack_error operation) w))
      = [kyber512_keypair].
Proof.
  intros operation w v e H1 H2.
  unfold emitted, execute.
  rewrite (bind_invoke_returns _ _ _ _ H1).
  match goal with |- context [bind (invoke respond kyber512_keypair) _ ?w1] =>
    rewrite (bind_invoke_raises _ _ w1 e H2) end.
  cbn [fst snd]. split; [reflexivity|].
  rewrite (since_extension _ _
    [Called (log_info "Executing PQC testing") (Returns v)
       (took (fst (respond (log_info "Executing PQC testing") (ext w))));
     Called kyber512_keypair (Raises e)
       (took (fst (respond kyber512_keypair
                     (snd (respond (log_info "Executing PQC testing") (ext w))))))]).
  - reflexivity.
  - cbn [trace ext]. rewrite <- app_assoc. reflexivity.
Qed.

(** *** Failures, repetition and the life of a plugin *)

(** Values that cannot be unpacked into two names whatever the host:
    [None], a bool, an int, a tuple of another length. *)
Lemma unpack2_rejects (rhs : value) (w : World) :
  rhs = VNone \/ (exists b, rhs = VBool b) \/ (exists z, rhs = VInt z) \/
  (exists items, rhs = VTuple items /\ List.length items <> 2%nat) ->
  unpack2 iterate unpack_error rhs w = (Raise (unpack_error rhs), w).
Proof.
  intros [->|[(b & ->)|[(z & ->)|(items & -> & Hlen)]]]; try reflexivity.
  destruct items as [|a [|b [|c l]]]; try reflexivity.
  exfalso. apply Hlen. reflexivity.
Qed.

Lemma bind_unpack2_rejects {A} (rhs : value)
      (k : value * value -> Effects.M Call PQCPlugin Ext A) (w : World) :
  rhs = VNone \/ (exists b, rhs = VBool b) \/ (exists z, rhs = VInt z) \/
  (exists items, rhs = VTuple items /\ List.length items <> 2%nat) ->
  bind (unpack2 iterate unpack_error rhs) k w = (Raise (unpack_error rhs), w).
Proof.
  intros U. unfold bind. rewrite (unpack2_rejects rhs w U). reflexivity.
Qed.

(** The assignment binds two names or raises; either way it makes no
    call, takes no time and leaves the plugin alone. *)
Lemma step_unpack2 {A} (rhs : value)
      (k : value * value -> Effects.M Call PQCPlugin Ext A) (w : World) :
  exists x,
    (exists p, bind (unpack2 iterate unpack_error rhs) k w
               = k p (mkWorld (self w) x (clock w) (trace w))) \/
    (exists e, bind (unpack2 iterate unpack_error rhs) k w
               = (Raise e, mkWorld (self w) x (clock w) (trace w))).
Proof.
  destruct w as [s x t tr]. unfold bind, unpack2, ret, raise.
  destruct rhs as [|b|z|str|id|items]; cbn [self ext clock trace];
    try (exists x; right; eexists; reflexivity).
  - destruct (iterate (VStr str) x) as [[[|a [|b [|c l]]]|e] x'];
      exists x'; (left; eexists; reflexivity) || (right; eexists; reflexivity).
  - destruct (iterate (VObj id) x) as [[[|a [|b [|c l]]]|e] x'];
      exists x'; (left; eexists; reflexivity) || (right; eexists; reflexivity).
  - destruct items as [|a [|b [|c l]]];
      exists x; (left; eexists; reflexivity) || (right; eexists; reflexivity).
Qed.

Ltac call_next E c :=
  let v := fresh "v" in
  let e := fresh "e" in
  let d := fresh "d" in
  let x := fresh "x" in
  let R := fresh "R" in
  match type of E with
  | context [bind (invoke respond c) _ ?w1] =>
      destruct (respond c (ext w1)) as [[[v|e] d] x] eqn:R;
      [ rewrite (step_returns respond c _ w1 v d x R) in E
      | rewrite (step_raises respond c _ w1 e d x R) in E ];
      cbn [self ext clock trace] in E
  end.

Ltac unpack_next E :=
  let x := fresh "x" in
  let p := fresh "p" in
  let e := fresh "e" in
  let Hp := fresh "Hp" in
  match type of E with
  | context [bind (unpack2 iterate unpack_error ?rhs) ?k ?w1] =>
      destruct (step_unpack2 rhs k w1) as (x & [(p & Hp)|(e & Hp)]);
      rewrite Hp in E; clear Hp; cbn [self ext clock trace] in E
  end.

Ltac close_run E w :=
  rewrite <- ?app_assoc in E; cbn [app] in E;
  match type of E with
  | (_, mkWorld _ _ _ (trace w ++ ?L)) = _ =>
      inversion E; subst; clear E;
      rewrite (since_extension w _ L) by reflexivity;
      cbn [fst snd self invoked sleeps printed raised]
  end.

Ltac find_raise :=
  let c := fresh "c" in
  let e := fresh "e" in
  let d := fresh "d" in
  let Hin := fresh "Hin" in
  intros c e d Hin; cbn [In] in Hin;
  repeat (destruct Hin as [Hin|Hin]; [try discriminate Hin|]);
  try contradiction;
  inversion Hin; subst; split; [reflexivity|];
  match goal with
  | |- exists pre post, _ /\ ?I = _ =>
      exists (removelast I), (skipn (List.length I) execute_calls);
      split; reflexivity
  end.

(** Whatever the collaborators do, [execute] makes no other calls than
    its five, in their order, each at most once, and stops at the first
    that fails: a call that raises is the last call made, and what it
    raised is what [execute] raises.  [execute] never rebinds an
    attribute of the plugin, never sleeps or prints; and it can return
    nothing but [True], which it does only after all five calls, none of
    which raised. *)
Theorem execute_call_discipline :
  forall (operation : value) (w : World),
    (exists rest,
        execute_calls
        = invoked (emitted (execute respond iterate unpack_error operation) w)
            ++ rest) /\
    self (snd (execute respond iterate unpack_error operation w)) = self w /\
    sleeps (emitted (execute respond iterate unpack_error operation) w) = [] /\
    printed (emitted (execute respond iterate unpack_error operation) w) = [] /\
    (forall c e d,
        In (Called c (Raises e) d)
           (emitted (execute respond iterate unpack_error operation) w) ->
        fst (execute respond iterate unpack_error operation w) = Raise e /\
        exists pre post,
          execute_calls = pre ++ c :: post /\
          invoked (emitted (execute respond iterate unpack_error operation) w)
            = pre ++ [c]) /\
    (forall v, fst (execute respond iterate unpack_error operation w) = Ok v ->
               v = VBool true /\
               invoked (emitted (execute respond iterate unpack_error operation) w)
                 = execute_calls /\
               raised (emitted (execute respond iterate unpack_error operation) w)
                 = []).
Proof.
  intros operation w. unfold emitted.
  destruct (execute respond iterate unpack_error operation w) as [r w'] eqn:E.
  unfold execute in E.
  call_next E (log_info "Executing PQC testing");
    [call_next E kyber512_keypair;
      [unpack_next E;
        [call_next E (log_info "Generated Kyber key pair");
          [call_next E dilithium2_keypair;
            [unpack_next E;
              [call_next E (log_info "Generated Dilithium key pair");
                [unfold ret in E|]|]|]|]|]|]|];
    close_run E w;
    (split; [eexists; reflexivity|]);
    (split; [reflexivity|]); (split; [reflexivity|]); (split; [reflexivity|]);
    (split;
     [ first [find_raise
             | intros ? ? ? Hin; cbn [In] in Hin;
               repeat (destruct Hin as [Hin|Hin]; [discriminate Hin|]);
               contradiction ]
     | let Hv := fresh "Hv" in
       intros ? Hv;
       first [discriminate Hv | inversion Hv; repeat split; reflexivity] ]).
Qed.

(** A Kyber answer that cannot be two items - [None], a bool, an int, a
    tuple of another length - makes [execute] raise at the assignment:
    the Dilithium generator is never called and nothing is returned. *)
Theorem execute_stops_at_a_malformed_key_pair :
  forall (operation : value) (w : World) (v rhs : value),
    answer (fst (respond (log_info "Executing PQC testing") (ext w))) = Returns v ->
    answer (fst (respond kyber512_keypair
                   (snd (respond (log_info "Executing PQC testing") (ext w)))))
      = Returns rhs ->
    rhs = VNone \/ (exists b, rhs = VBool b) \/ (exists z, rhs = VInt z) \/
    (exists items, rhs = VTuple items /\ List.length items <> 2%nat) ->
    fst (execute respond iterate unpack_error operation w)
      = Raise (unpack_error rhs) /\
    invoked (emitted (execute respond iterate unpack_error operation) w)
      = [log_info "Executing PQC testing"; kyber512_keypair].
Proof.
  intros operation w v rhs H1 H2 U.
  unfold emitted, execute.
  rewrite (bind_invoke_returns _ _ _ _ H1).
  match goal with |- context [bind (invoke respond kyber512_keypair) _ ?w1] =>
    rewrite (bind_invoke_returns _ _ w1 rhs H2) end.
  rewrite (bind_unpack2_rejects rhs _ _ U).
  cbn [fst snd]. split; [reflexivity|].
  erewrite since_extension; [|cbn [trace]; rewrite <- app_assoc; reflexivity].
  reflexivity.
Qed.

(** Nothing is kept between two runs: run twice in a row on
    collaborators that answer, [execute] asks for four key pairs -
    Kyber, Dilithium, Kyber, Dilithium - and returns [True]. *)
Theorem execute_generates_fresh_keys_each_time :
  answers respond ->
  forall (op1 op2 : value) (w : World),
    fst (bind (execute respond iterate unpack_error op1)
              (fun _ => execute respond iterate unpack_error op2) w) = Ok (VBool true) /\
    filter is_keygen
      (invoked (emitted (bind (execute respond iterate unpack_error op1)
                              (fun _ => execute respond iterate unpack_error op2)) w))
    = [kyber512_keypair; dilithium2_keypair; kyber512_keypair; dilithium2_keypair].
Proof.
  intros Hans op1 op2 w. unfold emitted, bind.
  destruct (execute_runs op1 w Hans) as (evs1 & x1 & t1 & Hrun1 & Hi1 & _).
  rewrite Hrun1.
  destruct (execute_runs op2 (mkWorld (self w) x1 t1 (trace w ++ evs1)) Hans)
    as (evs2 & x2 & t2 & Hrun2 & Hi2 & _).
  rewrite Hrun2. cbn [fst snd self trace]. split; [reflexivity|].
  rewrite (since_extension _ _ (evs1 ++ evs2))
    by (cbn [trace]; rewrite app_assoc; reflexivity).
  rewrite invoked_app, Hi1, Hi2. reflexivity.
Qed.

(** [initialize] binds [services] before it logs: the attribute holds
    the new services afterwards even when the logger raises, in which case
    the exception is passed on.  [name] and [description] are left alone,
    and the one call made is the log line. *)
Theorem initialize_binds_services_before_logging :
  forall (services' : value) (w : World),
    services (self (snd (initialize respond services' w))) = Some services' /\
    name (self (snd (initialize respond services' w))) = name (self w) /\
    description (self (snd (initialize respond services' w)))
      = description (self w) /\
    invoked (emitted (initialize respond services') w)
      = [log_info "Initialized PQC Plugin"] /\
    fst (initialize respond services' w)
      = match answer (fst (respond (log_info "Initialized PQC Plugin") (ext w))) with
        | Returns _ => Ok VNone
        | Raises e => Raise e
        end.
Proof.
  intros services' w. unfold emitted.
  destruct (initialize respond services' w) as [r w'] eqn:E.
  unfold initialize in E. rewrite step_setattr in E.
  match type of E with
  | context [bind (invoke respond ?c) _ ?w1] =>
      destruct (respond c (ext w1)) as [[[v|e] d] x] eqn:R;
      [ rewrite (step_returns respond c _ w1 v d x R) in E
      | rewrite (step_raises respond c _ w1 e d x R) in E ];
      cbn [self ext clock trace] in E, R; rewrite R
  end;
    unfold ret in E; inversion E; subst; clear E;
    rewrite (since_extension w _ [Called (log_info "Initialized PQC Plugin") _ d])
      by reflexivity;
    repeat split.
Qed.

(** The life of a plugin on a host that answers: after [__init__],
    [initialize] and [execute], the plugin carries its name, its
    description and the services it was given; every other attribute is
    as the base initialiser left it - nothing was added, no key - and the
    calls made were the base-class initialiser, the initialisation log
    line and the five calls of [execute], in that order. *)
Theorem plugin_lifecycle :
  answers respond ->
  (forall s x, exists v, answer (fst (fst (base_init s x))) = Returns v) ->
  forall (services' operation : value) (w : World),
    let life := bind (__init__ base_init) (fun _ =>
                bind (initialize respond services') (fun _ =>
                execute respond iterate unpack_error operation)) in
    fst (life w) = Ok (VBool true) /\
    self (snd (life w))
      = mkPQCPlugin (Some (VStr "PQC Plugin"))
                    (Some (VStr "Plugin for AI-powered PQC testing"))
                    (Some services')
                    (inherited (snd (fst (base_init (self w) (ext w))))) /\
    invoked (emitted life w)
      = super_init :: log_info "Initialized PQC Plugin" :: execute_calls.
Proof.
  intros Hans Hsuper services' operation w life.
  pose proof Hans as (Hlog & _).
  assert (Hinit : exists v0 d0 x0,
             __init__ base_init w
             = (Ok VNone,
                mkWorld (mkPQCPlugin (Some (VStr "PQC Plugin"))
                           (Some (VStr "Plugin for AI-powered PQC testing"))
                           (services (snd (fst (base_init (self w) (ext w)))))
                           (inherited (snd (fst (base_init (self w) (ext w))))))
                        x0 (clock w + d0)
                        (trace w ++ [Called super_init (Returns v0) d0]))).
  { destruct (Hsuper (self w) (ext w)) as (v0 & H0).
    unfold __init__, call_super_init, bind, setattr, ret, record.
    destruct (base_init (self w) (ext w)) as [[r s1] x1].
    cbn [fst snd] in *. rewrite H0. cbn [self ext clock trace name description
                                          services inherited].
    eexists _, _, _. reflexivity. }
  destruct Hinit as (v0 & d0 & x0 & Hinit).
  set (w1 := mkWorld _ x0 _ _) in Hinit.
  assert (Hinitialize : exists v1 d1 x1,
             initialize respond services' w1
             = (Ok VNone,
                mkWorld (mkPQCPlugin (Some (VStr "PQC Plugin"))
                           (Some (VStr "Plugin for AI-powered PQC testing"))
                           (Some services')
                           (inherited (snd (fst (base_init (self w) (ext w))))))
                        x1 (clock w1 + d1)
                        (trace w1 ++ [Called (log_info "Initialized PQC Plugin")
                                             (Returns v1) d1]))).
  { unfold initialize. rewrite step_setattr.
    match goal with
    | |- context [bind (invoke respond (log_info ?m)) _ ?w2] =>
        destruct (Hlog m (ext w2)) as (v1 & H1);
        rewrite (bind_invoke_returns _ _ w2 _ H1)
    end.
    eexists _, _, _. reflexivity. }
  destruct Hinitialize as (v1 & d1 & x1 & Hinitialize).
  set (w2 := mkWorld _ x1 _ _) in Hinitialize.
  destruct (execute_runs operation w2 Hans) as (evs & x & t & Hrun & Hi & _).
  assert (Hlife : life w = (Ok (VBool true), mkWorld (self w2) x t (trace w2 ++ evs))).
  { unfold life, bind. rewrite Hinit, Hinitialize, Hrun. reflexivity. }
  unfold emitted. rewrite Hlife. cbn [fst snd self].
  split; [reflexivity|]. split; [reflexivity|].
  rewrite (since_extension w _
             ([Called super_init (Returns v0) d0;
               Called (log_info "Initialized PQC Plugin") (Returns v1) d1] ++ evs)).
  - rewrite invoked_app, Hi. reflexivity.
  - unfold w2, w1. cbn [trace]. rewrite <- !app_assoc. reflexivity.
Qed.

End PluginFacts.

(* ================================================================== *)
(** ** The header of pqc_plugin.py *)
(* ================================================================== *)

Section SourceFacts.
Import Source.

(** C10.  The text of the plugin module opens with the line
    [nomad status tetracrypt] and, after it, [podman ps] run together
    with [import pqcrypto]; both stand at the left margin, where a
    statement starts, and both put plain names side by side, which no
    statement may.  Compiling the text stops at line 1, so importing the
    module binds nothing - the [class PQCPlugin] statement of line 5 is
    never reached, although the text from line 3 on would bind it. *)
Theorem pqc_plugin_module_does_not_parse :
  nth_error pqc_plugin_py 0 = Some "nomad status tetracrypt" /\
  nth_error pqc_plugin_py 1 = Some (String.append "podman ps" "import pqcrypto") /\
  words "nomad status tetracrypt" = ["nomad"; "status"; "tetracrypt"] /\
  words "podman psimport pqcrypto" = ["podman"; "psimport"; "pqcrypto"] /\
  juxtaposed_names "nomad status tetracrypt" = true /\
  juxtaposed_names "podman psimport pqcrypto" = true /\
  import_module pqc_plugin_py = SyntaxErrorAt 1 /\
  option_map class_bound (nth_error pqc_plugin_py 4) = Some (Some "PQCPlugin") /\
  import_module (skipn 2 pqc_plugin_py) = Executed ["PQCPlugin"].
Proof. repeat split; reflexivity. Qed.

End SourceFacts.

(* ================================================================== *)
(** ** The theorems on concrete collaborators *)
(* ================================================================== *)

Section Scenarios.
Import Monitor Scenario Fixtures.

Local Abbreviation privacy_error :=
  (mkExn ExceptionClass (Text "privacy budget exceeded")).
Local Abbreviation keys_error :=
  (mkExn ExceptionClass (Text "key store unreachable")).
Local Abbreviation str_failure :=
  (mkExn ExceptionClass (Text "__str__ failed")).
Local Abbreviation unprintable :=
  (mkExn ExceptionClass (StrRaises str_failure)).
Local Abbreviation closed_error :=
  (mkExn ExceptionClass (Text "I/O operation on closed file")).

(** The privacy check raises an [Exception] whose [__str__] raises: the
    [except] clause catches the first and lets the second out, and the
    loop is over. *)
Lemma unprintable_exception_ends_the_loop :
  In (Called (VObj 2, check_privacy) (Raises unprintable) 5)
     (emitted (iteration (scripted privacy_fails_unprintably 5) console) boot) /\
  is_Exception unprintable = true /\
  fst (iteration (scripted privacy_fails_unprintably 5) console boot)
    = Raise str_failure /\
  forall n, fst (monitor (scripted privacy_fails_unprintably 5) console (S n) boot)
            = Escaped str_failure.
Proof.
  split; [vm_compute; right; left; reflexivity|].
  split; [reflexivity|]. split; [reflexivity|].
  intros n. reflexivity.
Qed.

(** The privacy check raises: the error is printed and the loop goes on. *)
Lemma privacy_failure_is_survived :
  In (Called (VObj 2, check_privacy) (Raises privacy_error) 5)
     (emitted (iteration (scripted privacy_fails 5) console) boot) /\
  is_Exception privacy_error = true /\
  fst (iteration (scripted privacy_fails 5) console boot) = Ok tt /\
  In (Printed "Monitoring error: privacy budget exceeded")
     (emitted (iteration (scripted privacy_fails 5) console) boot) /\
  forall n, monitor (scripted privacy_fails 5) console (S n) boot
            = monitor (scripted privacy_fails 5) console n
                (snd (iteration (scripted privacy_fails 5) console boot)).
Proof.
  assert (H1 : In (Called (VObj 2, check_privacy) (Raises privacy_error) 5)
                  (emitted (iteration (scripted privacy_fails 5) console) boot))
    by (vm_compute; right; left; reflexivity).
  assert (H2 : is_Exception privacy_error = true) by reflexivity.
  split; [exact H1|]. split; [exact H2|].
  destruct (probe_exception_is_caught_and_loop_continues nat
              (scripted privacy_fails 5) console boot
              (VObj 2, check_privacy) privacy_error 5 H1 H2)
    as (_ & Hprints & _).
  exact (Hprints "privacy budget exceeded" eq_refl eq_refl).
Defined.

(** The privacy check raises: the anomaly detector, a check of the same
    pass, is not invoked. *)
Lemma anomaly_detector_skipped_after_privacy_failure :
  In (Called (VObj 2, check_privacy) (Raises privacy_error) 5)
     (emitted (iteration (scripted privacy_fails 5) console) boot) /\
  In (VObj 3, detect_anomalies) (checks (self boot)) /\
  ~ In (VObj 3, detect_anomalies)
       (invoked (emitted (iteration (scripted privacy_fails 5) console) boot)).
Proof.
  split; [vm_compute; right; left; reflexivity|].
  split; [vm_compute; right; right; left; reflexivity|].
  vm_compute. intros [H|[H|[]]]; discriminate.
Qed.

Lemma privacy_failure_abandons_the_cycle :
  In (Called (VObj 2, check_privacy) (Raises privacy_error) 5)
     (emitted (iteration (scripted privacy_fails 5) console) boot) /\
  exists pre post,
    checks (self boot) = pre ++ (VObj 2, check_privacy) :: post /\
    invoked (emitted (iteration (scripted privacy_fails 5) console) boot)
      = pre ++ [(VObj 2, check_privacy)] /\
    (forall c', In c' post ->
       ~ In c' (invoked (emitted (iteration (scripted privacy_fails 5) console)
                           boot))) /\
    sleeps (emitted (iteration (scripted privacy_fails 5) console) boot) = [] /\
    forall n, monitor (scripted privacy_fails 5) console (S n) boot
              = monitor (scripted privacy_fails 5) console n
                  (snd (iteration (scripted privacy_fails 5) console boot)).
Proof.
  assert (H1 : In (Called (VObj 2, check_privacy) (Raises privacy_error) 5)
                  (emitted (iteration (scripted privacy_fails 5) console) boot))
    by (vm_compute; right; left; reflexivity).
  split; [exact H1|].
  destruct (check_failure_abandons_rest_of_cycle nat
              (scripted privacy_fails 5) console boot
              (VObj 2, check_privacy) privacy_error 5 H1)
    as (pre & post & Hcs & Hi & Hpost & Hs & Hgo).
  exists pre, post.
  split; [exact Hcs|]. split; [exact Hi|]. split; [exact Hpost|].
  split; [exact Hs|].
  exact (Hgo eq_refl "privacy budget exceeded" eq_refl eq_refl).
Defined.

(** The key check raises: one call is made in the pass, not six. *)
Lemma failed_cycle_covers_one_check_of_six :
  invoked (emitted (iteration (scripted keys_fail 5) console) boot)
    = [(VObj 1, check_keys)] /\
  List.length (checks (self boot)) = 6%nat /\
  invoked (emitted (iteration (scripted keys_fail 5) console) boot)
    <> checks (self boot).
Proof.
  split; [reflexivity|]. split; [reflexivity|].
  vm_compute. discriminate.
Qed.

Lemma healthy_cycle_invokes_all_six :
  raised (emitted (iteration (scripted all_fine 5) console) boot) = [] /\
  invoked (emitted (iteration (scripted all_fine 5) console) boot)
    = checks (self boot) /\
  In (Called (VObj 1, check_keys) (Raises keys_error) 5)
     (emitted (iteration (scripted keys_fail 5) console) boot) /\
  raised (emitted (iteration (scripted keys_fail 5) console) boot) = [keys_error].
Proof.
  assert (H1 : raised (emitted (iteration (scripted all_fine 5) console) boot) = [])
    by reflexivity.
  assert (H2 : In (Called (VObj 1, check_keys) (Raises keys_error) 5)
                  (emitted (iteration (scripted keys_fail 5) console) boot))
    by (vm_compute; left; reflexivity).
  split; [exact H1|]. split.
  - exact (proj1 (proj2 (proj2
             (cycle_invokes_checks_in_order_up_to_first_failure nat
                (scripted all_fine 5) console boot))) H1).
  - split; [exact H2|].
    exact (proj1 (proj1 (proj2 (proj2 (proj2
             (cycle_invokes_checks_in_order_up_to_first_failure nat
                (scripted keys_fail 5) console boot))))
             (VObj 1, check_keys) keys_error 5 H2)).
Defined.

(** The call of the privacy check raises: no outcome value comes back. *)
Lemma invoking_a_failing_check_raises :
  fst (invoke (scripted privacy_fails 5) (VObj 2, check_privacy) boot)
    = Raise privacy_error /\
  ~ (exists v, fst (invoke (scripted privacy_fails 5) (VObj 2, check_privacy) boot)
               = Ok v).
Proof.
  split; [reflexivity|]. intros [v H]. vm_compute in H. discriminate.
Qed.

Lemma privacy_failure_reaches_the_loop_handler :
  In (Called (VObj 2, check_privacy) (Raises privacy_error) 5)
     (emitted (try_block (scripted privacy_fails 5)) boot) /\
  fst (try_block (scripted privacy_fails 5) boot) = Raise privacy_error /\
  iteration (scripted privacy_fails 5) console boot
    = handler console privacy_error (snd (try_block (scripted privacy_fails 5) boot)) /\
  emitted (iteration (scripted privacy_fails 5) console) boot
    = emitted (try_block (scripted privacy_fails 5)) boot
        ++ [Printed "Monitoring error: privacy budget exceeded"].
Proof.
  assert (H1 : In (Called (VObj 2, check_privacy) (Raises privacy_error) 5)
                  (emitted (try_block (scripted privacy_fails 5)) boot))
    by (vm_compute; right; left; reflexivity).
  split; [exact H1|].
  destruct (probe_exception_propagates_to_loop_handler nat
              (scripted privacy_fails 5) console boot
              (VObj 2, check_privacy) privacy_error 5 H1)
    as (_ & Hraise & Hhandler & Hcaught & _).
  split; [exact Hraise|]. split; [exact (Hhandler eq_refl)|].
  exact (proj2 (Hcaught eq_refl "privacy budget exceeded" eq_refl eq_refl)).
Defined.

(** Checks that take 30 seconds: the next pass starts at 90, not at 60.
    Checks that take 120 seconds: the next pass starts at 180, not at
    once. *)
Lemma ticks_are_not_aligned_to_the_interval :
  call_time (emitted (iteration (scripted all_fine 5) console) boot) = 30 /\
  clock (snd (iteration (scripted all_fine 5) console boot))
    <> Z.max (clock boot + 60)
             (clock boot
              + call_time (emitted (iteration (scripted all_fine 5) console) boot)) /\
  call_time (emitted (iteration (scripted all_fine 20) console) boot) = 120 /\
  clock (snd (iteration (scripted all_fine 20) console boot))
    <> Z.max (clock boot + 60)
             (clock boot
              + call_time (emitted (iteration (scripted all_fine 20) console) boot)).
Proof.
  split; [reflexivity|]. split; [vm_compute; discriminate|].
  split; [reflexivity|]. vm_compute; discriminate.
Qed.

Lemma slow_cycle_still_sleeps_sixty :
  raised (emitted (iteration (scripted all_fine 20) console) boot) = [] /\
  exists evs,
    emitted (iteration (scripted all_fine 20) console) boot = evs ++ [Slept 60] /\
    sleeps evs = [] /\
    fst (iteration (scripted all_fine 20) console boot) = Ok tt /\
    clock (snd (iteration (scripted all_fine 20) console boot))
      = clock boot
        + call_time (emitted (iteration (scripted all_fine 20) console) boot) + 60.
Proof.
  assert (H1 : raised (emitted (iteration (scripted all_fine 20) console) boot) = [])
    by reflexivity.
  split; [exact H1|].
  exact (sleep_is_fixed_and_follows_the_work nat (scripted all_fine 20) console
           boot H1).
Defined.

(** The key store is down and standard output is closed: the sleep is
    skipped, but no next pass begins - the error raised by [print] ends
    the loop after a single call. *)
Lemma closed_console_ends_the_polling :
  In (Called (VObj 1, check_keys) (Raises keys_error) 5)
     (emitted (iteration (scripted keys_fail 5) closed_console) boot) /\
  is_Exception keys_error = true /\
  sleeps (emitted (iteration (scripted keys_fail 5) closed_console) boot) = [] /\
  (forall n, fst (monitor (scripted keys_fail 5) closed_console (S n) boot)
             = Escaped closed_error) /\
  invoked (since boot (snd (monitor (scripted keys_fail 5) closed_console 5 boot)))
    = [(VObj 1, check_keys)].
Proof.
  split; [vm_compute; left; reflexivity|].
  split; [reflexivity|]. split; [reflexivity|].
  split; [intros n; reflexivity|reflexivity].
Qed.

Lemma scripted_keys_fail_raises_printable_Exceptions :
  forall (c : Call) (x : nat) e,
    answer (fst (scripted keys_fail 5 c x)) = Raises e ->
    is_Exception e = true /\ exists s, str e = Text s.
Proof.
  intros [r m] x e. destruct m; simpl; intros H; inversion H.
  split; [reflexivity|]. eexists. reflexivity.
Defined.

Lemma console_takes_every_line :
  forall (line : string) (x : nat), fst (console line x) = None.
Proof. intros line x. reflexivity. Defined.

(** The key store is down for good: pass after pass, no sleep. *)
Lemma dead_key_store_is_polled_back_to_back :
  In (Called (VObj 1, check_keys) (Raises keys_error) 5)
     (emitted (iteration (scripted keys_fail 5) console) boot) /\
  is_Exception keys_error = true /\
  sleeps (emitted (iteration (scripted keys_fail 5) console) boot) = [] /\
  (forall n, monitor (scripted keys_fail 5) console (S n) boot
             = monitor (scripted keys_fail 5) console n
                 (snd (iteration (scripted keys_fail 5) console boot))) /\
  forall n,
    fst (monitor (scripted keys_fail 5) console n boot) = StillLooping /\
    sleeps (since boot (snd (monitor (scripted keys_fail 5) console n boot))) = [] /\
    List.length
      (printed (since boot (snd (monitor (scripted keys_fail 5) console n boot))))
      = n /\
    clock (snd (monitor (scripted keys_fail 5) console n boot))
      = clock boot
        + call_time (since boot (snd (monitor (scripted keys_fail 5) console n boot))).
Proof.
  assert (H1 : In (Called (VObj 1, check_keys) (Raises keys_error) 5)
                  (emitted (iteration (scripted keys_fail 5) console) boot))
    by (vm_compute; left; reflexivity).
  assert (H2 : is_Exception keys_error = true) by reflexivity.
  assert (H3 : forall x : nat, exists e',
               answer (fst (scripted keys_fail 5 (VObj 1, check_keys) x)) = Raises e')
    by (intros x; eexists; reflexivity).
  split; [exact H1|]. split; [exact H2|].
  destruct (failed_cycle_skips_the_sleep nat (scripted keys_fail 5) console boot
              (VObj 1, check_keys) keys_error 5 H1 H2) as ((Hs & _ & Hgo) & Hall).
  split; [exact Hs|].
  split; [exact (Hgo "key store unreachable" eq_refl eq_refl)|].
  exact (Hall H3 scripted_keys_fail_raises_printable_Exceptions
           console_takes_every_line).
Defined.

(** The plugin on a host that answers. *)
Lemma host_answers : Plugin.answers host.
Proof.
  split; [|split].
  - intros msg x. eexists. reflexivity.
  - intros x. eexists _, _. reflexivity.
  - intros x. eexists _, _. reflexivity.
Defined.

Lemma execute_on_a_host_that_answers :
  Plugin.answers host /\
  fst (Plugin.execute host no_iteration type_error (VStr "op-1") loaded)
    = Ok (VBool true) /\
  filter Plugin.is_keygen
    (invoked (emitted (Plugin.execute host no_iteration type_error (VStr "op-1"))
                loaded))
    = [Plugin.kyber512_keypair; Plugin.dilithium2_keypair] /\
  self (snd (Plugin.execute host no_iteration type_error (VStr "op-1") loaded))
    = self loaded.
Proof.
  split; [exact host_answers|].
  destruct (execute_generates_two_key_pairs_and_returns_True nat host
              no_iteration type_error (VStr "op-1") loaded host_answers)
    as (H1 & H2 & _ & _ & H5).
  split; [exact H1|]. split; [exact H2|exact H5].
Defined.

Lemma execute_on_two_operations :
  Plugin.answers host /\
  Plugin.execute host no_iteration type_error (VStr "op-1") loaded
    = Plugin.execute host no_iteration type_error (VInt 2) loaded /\
  fst (Plugin.execute host no_iteration type_error (VStr "op-1") loaded)
    = Ok (VBool true) /\
  fst (Plugin.execute host no_iteration type_error (VInt 2) loaded)
    = Ok (VBool true).
Proof.
  split; [exact host_answers|].
  destruct (execute_ignores_its_operation nat host no_iteration type_error
              (VStr "op-1") (VInt 2) loaded) as (H1 & _ & H3).
  split; [exact H1|]. exact (H3 host_answers).
Defined.

End Scenarios.

(* ================================================================== *)
(** ** More theorems on concrete collaborators *)
(* ================================================================== *)

Section MoreScenarios.
Import Monitor Scenario Fixtures.

Local Abbreviation keys_error :=
  (mkExn ExceptionClass (Text "key store unreachable")).
Local Abbreviation ctrl_c := (mkExn BaseExceptionOnly (Text "")).

Lemma loop_with_dead_key_store_runs_on :
  (forall (c : Call) (x : nat) e,
      answer (fst (scripted keys_fail 5 c x)) = Raises e ->
      is_Exception e = true /\ exists s, str e = Text s) /\
  (forall (line : string) (x : nat), fst (console line x) = None) /\
  forall n, fst (monitor (scripted keys_fail 5) console n boot) = StillLooping.
Proof.
  split; [exact scripted_keys_fail_raises_printable_Exceptions|].
  split; [exact console_takes_every_line|].
  intros n.
  exact (monitor_runs_forever nat (scripted keys_fail 5) console
           scripted_keys_fail_raises_printable_Exceptions
           console_takes_every_line n boot).
Defined.

Lemma ctrl_c_during_scan_ends_the_loop :
  In (Called (VObj 4, scan_system) (Raises ctrl_c) 5)
     (emitted (iteration (scripted interrupted 5) console) boot) /\
  is_Exception ctrl_c = false /\
  forall n, fst (monitor (scripted interrupted 5) console (S n) boot)
            = Escaped ctrl_c.
Proof.
  assert (H1 : In (Called (VObj 4, scan_system) (Raises ctrl_c) 5)
                  (emitted (iteration (scripted interrupted 5) console) boot))
    by (vm_compute; right; right; right; left; reflexivity).
  assert (H2 : is_Exception ctrl_c = false) by reflexivity.
  split; [exact H1|]. split; [exact H2|].
  exact (base_exception_escapes nat (scripted interrupted 5) console boot
           (VObj 4, scan_system) ctrl_c 5 H1 H2).
Defined.

Lemma three_failed_passes_print_three_errors :
  fst (monitor (scripted privacy_fails 5) console 3 boot) = StillLooping /\
  (List.length
     (sleeps (since boot (snd (monitor (scripted privacy_fails 5) console 3 boot))))
   + List.length
       (printed (since boot (snd (monitor (scripted privacy_fails 5) console 3 boot))))
   = 3)%nat.
Proof.
  assert (H1 : fst (monitor (scripted privacy_fails 5) console 3 boot) = StillLooping)
    by reflexivity.
  split; [exact H1|].
  exact (proj2 (proj2 (proj2
           (every_pass_sleeps_or_prints nat (scripted privacy_fails 5) console
              3%nat boot)))
           H1).
Defined.

Lemma two_failures_two_lines :
  fst (monitor (scripted keys_fail 5) console 2 boot) = StillLooping /\
  exists texts,
    map str (raised (since boot (snd (monitor (scripted keys_fail 5) console 2 boot))))
      = map Text texts /\
    printed (since boot (snd (monitor (scripted keys_fail 5) console 2 boot)))
      = map error_line texts.
Proof.
  assert (H1 : fst (monitor (scripted keys_fail 5) console 2 boot) = StillLooping)
    by reflexivity.
  split; [exact H1|].
  exact (proj2 (proj2
           (printed_lines_are_the_caught_exceptions nat (scripted keys_fail 5)
              console 2%nat boot) H1)).
Defined.

Lemma privacy_check_is_one_of_the_six :
  In (VObj 2, check_privacy)
     (invoked (since boot (snd (monitor (scripted privacy_fails 5) console 2 boot)))) /\
  In (VObj 2, check_privacy) (checks (self boot)).
Proof.
  assert (H1 : In (VObj 2, check_privacy)
                  (invoked (since boot
                              (snd (monitor (scripted privacy_fails 5) console 2
                                      boot)))))
    by (vm_compute; right; left; reflexivity).
  split; [exact H1|].
  exact (loop_calls_only_the_six_checks nat (scripted privacy_fails 5) console
           2%nat boot (VObj 2, check_privacy) H1).
Defined.

Lemma scripted_all_fine_never_raises :
  forall (c : Call) (x : nat),
    exists v, answer (fst (scripted all_fine 5 c x)) = Returns v.
Proof.
  intros [r m] x. destruct m; eexists; reflexivity.
Defined.

Lemma four_healthy_passes :
  (forall (c : Call) (x : nat),
      exists v, answer (fst (scripted all_fine 5 c x)) = Returns v) /\
  fst (monitor (scripted all_fine 5) console 4 boot) = StillLooping /\
  invoked (since boot (snd (monitor (scripted all_fine 5) console 4 boot)))
    = List.concat (repeat (checks (self boot)) 4) /\
  sleeps (since boot (snd (monitor (scripted all_fine 5) console 4 boot)))
    = repeat 60 4 /\
  printed (since boot (snd (monitor (scripted all_fine 5) console 4 boot))) = [].
Proof.
  split; [exact scripted_all_fine_never_raises|].
  exact (healthy_loop_is_steady nat (scripted all_fine 5) console
           scripted_all_fine_never_raises 4%nat boot).
Defined.

Lemma other_values_same_loop :
  same_but_for_values (scripted all_fine 5) (scripted all_fine_other_values 5) /\
  fst (monitor (scripted all_fine 5) console 3 boot)
    = fst (monitor (scripted all_fine_other_values 5) console 3 boot) /\
  clock (snd (monitor (scripted all_fine 5) console 3 boot))
    = clock (snd (monitor (scripted all_fine_other_values 5) console 3 boot)) /\
  printed (trace (snd (monitor (scripted all_fine 5) console 3 boot)))
    = printed (trace (snd (monitor (scripted all_fine_other_values 5) console 3
                             boot))).
Proof.
  assert (H1 : same_but_for_values (scripted all_fine 5)
                                   (scripted all_fine_other_values 5)).
  { intros [r m] x. destruct m; repeat split. }
  split; [exact H1|].
  destruct (loop_ignores_returned_values nat (scripted all_fine 5)
              (scripted all_fine_other_values 5) console H1 3%nat boot)
    as (Hs & Hc & _ & _ & _ & Hp & _).
  split; [exact Hs|]. split; [exact Hc|exact Hp].
Defined.

Import Startup.

Lemma factory_builds_six_instances :
  fst (__init__ factory (mkWorld unbound 0%nat 0 [])) = Ok VNone /\
  invoked (emitted (__init__ factory) (mkWorld unbound 0%nat 0 [])) = constructors /\
  caldera (self (snd (__init__ factory (mkWorld unbound 0%nat 0 []))))
    = Some (VObj 105).
Proof.
  assert (H1 : fst (__init__ factory (mkWorld unbound 0%nat 0 [])) = Ok VNone)
    by reflexivity.
  split; [exact H1|].
  destruct (init_binds_each_attribute_to_its_own_instance nat factory
              (mkWorld unbound 0%nat 0 []) VNone H1) as (_ & Hi & Ha).
  split; [exact Hi|].
  vm_compute in Ha. inversion Ha. reflexivity.
Defined.

Lemma missing_scanner_ends_the_script :
  fst (__init__ factory_without_scanner (mkWorld unbound 0%nat 0 []))
    = Raise (mkExn ExceptionClass (Text "model file missing")) /\
  is_Exception (mkExn ExceptionClass (Text "model file missing")) = true /\
  main factory_without_scanner (scripted all_fine 5) console 7 0%nat 0
    = ConstructionFailed (mkExn ExceptionClass (Text "model file missing"))
        (snd (__init__ factory_without_scanner (mkWorld unbound 0%nat 0 []))).
Proof.
  assert (H1 : fst (__init__ factory_without_scanner (mkWorld unbound 0%nat 0 []))
               = Raise (mkExn ExceptionClass (Text "model file missing")))
    by reflexivity.
  split; [exact H1|]. split; [reflexivity|].
  exact (proj1 (constructor_failure_ends_the_script nat factory_without_scanner
                  (scripted all_fine 5) console 0%nat 0
                  (mkExn ExceptionClass (Text "model file missing")) H1 7%nat)).
Defined.


Import Plugin.

Lemma failing_kyber_is_not_retried :
  answer (fst (host_with_failing_kyber (log_info "Executing PQC testing")
                 (ext loaded))) = Returns VNone /\
  fst (execute host_with_failing_kyber no_iteration type_error VNone loaded)
    = Raise (mkExn ExceptionClass (Text "liboqs not loaded")) /\
  filter is_keygen
    (invoked (emitted (execute host_with_failing_kyber no_iteration type_error VNone)
                loaded))
    = [kyber512_keypair].
Proof.
  assert (H1 : answer (fst (host_with_failing_kyber
                              (log_info "Executing PQC testing") (ext loaded)))
               = Returns VNone) by reflexivity.
  split; [exact H1|].
  exact (execute_does_not_retry nat host_with_failing_kyber no_iteration type_error
           VNone loaded VNone (mkExn ExceptionClass (Text "liboqs not loaded"))
           H1 eq_refl).
Defined.

Lemma broken_kyber_stops_execute :
  fst (execute host_with_broken_kyber no_iteration type_error VNone loaded)
    = Raise (type_error VNone) /\
  invoked (emitted (execute host_with_broken_kyber no_iteration type_error VNone)
             loaded)
    = [log_info "Executing PQC testing"; kyber512_keypair].
Proof.
  exact (execute_stops_at_a_malformed_key_pair nat host_with_broken_kyber
           no_iteration type_error VNone loaded VNone VNone eq_refl eq_refl
           (or_introl eq_refl)).
Defined.

(** A key pair that comes back as an object iterating to its two keys
    is unpacked like a tuple. *)
Lemma key_pair_objects_are_unpacked :
  fst (execute host_with_pair_objects pair_objects type_error VNone loaded)
    = Ok (VBool true).
Proof. reflexivity. Qed.

Lemma failing_kyber_is_the_last_call :
  In (Called kyber512_keypair
        (Raises (mkExn ExceptionClass (Text "liboqs not loaded"))) 1)
     (emitted (execute host_with_failing_kyber no_iteration type_error VNone)
        loaded) /\
  fst (execute host_with_failing_kyber no_iteration type_error VNone loaded)
    = Raise (mkExn ExceptionClass (Text "liboqs not loaded")) /\
  exists pre post,
    execute_calls = pre ++ kyber512_keypair :: post /\
    invoked (emitted (execute host_with_failing_kyber no_iteration type_error VNone)
               loaded)
      = pre ++ [kyber512_keypair].
Proof.
  assert (H1 : In (Called kyber512_keypair
                     (Raises (mkExn ExceptionClass (Text "liboqs not loaded"))) 1)
                  (emitted (execute host_with_failing_kyber no_iteration
                              type_error VNone) loaded))
    by (vm_compute; right; left; reflexivity).
  split; [exact H1|].
  exact (proj1 (proj2 (proj2 (proj2 (proj2
           (execute_call_discipline nat host_with_failing_kyber no_iteration
              type_error VNone loaded)))))
           kyber512_keypair (mkExn ExceptionClass (Text "liboqs not loaded")) 1 H1).
Defined.

Lemma two_runs_four_key_pairs :
  answers host /\
  filter is_keygen
    (invoked (emitted (bind (execute host no_iteration type_error (VStr "a"))
                            (fun _ => execute host no_iteration type_error (VStr "b")))
                loaded))
  = [kyber512_keypair; dilithium2_keypair; kyber512_keypair; dilithium2_keypair].
Proof.
  split; [exact host_answers|].
  exact (proj2 (execute_generates_fresh_keys_each_time nat host no_iteration
                  type_error host_answers (VStr "a") (VStr "b") loaded)).
Defined.

Lemma life_of_a_plugin_on_host :
  answers host /\
  (forall (s : PQCPlugin) (x : nat),
      exists v, answer (fst (fst (base s x))) = Returns v) /\
  fst (bind (Plugin.__init__ base) (fun _ =>
       bind (initialize host (VObj 0)) (fun _ =>
       execute host no_iteration type_error VNone)) blank_plugin) = Ok (VBool true) /\
  self (snd (bind (Plugin.__init__ base) (fun _ =>
             bind (initialize host (VObj 0)) (fun _ =>
             execute host no_iteration type_error VNone)) blank_plugin))
    = self loaded.
Proof.
  assert (H2 : forall (s : PQCPlugin) (x : nat),
             exists v, answer (fst (fst (base s x))) = Returns v)
    by (intros s x; eexists; reflexivity).
  split; [exact host_answers|]. split; [exact H2|].
  destruct (plugin_lifecycle nat host base no_iteration type_error host_answers H2
              (VObj 0) VNone blank_plugin) as (Hr & Hs & _).
  split; [exact Hr|exact Hs].
Defined.

Lemma services_bound_although_logger_fails :
  fst (initialize host_with_failing_logger (VObj 9) blank_plugin)
    = Raise (mkExn ExceptionClass (Text "log closed")) /\
  services (self (snd (initialize host_with_failing_logger (VObj 9) blank_plugin)))
    = Some (VObj 9).
Proof.
  destruct (initialize_binds_services_before_logging nat host_with_failing_logger
              (VObj 9) blank_plugin) as (Hs & _ & _ & _ & Hr).
  split; [exact Hr|exact Hs].
Defined.

End MoreScenarios.
